(** * ENV-COMBO I2C sensor driver: the read and probe protocol

    A shallow embedding of [env_combo_read_raw] and [env_combo_probe] of
    [env-combo.c].  Kernel state that the C code reaches through pointers
    (the bus behind the i2c client, the caller's output cell, the devices
    registered with the IIO core) is threaded explicitly; every bus
    transaction and every lock operation is appended to an event trace, so
    that ordering properties of the protocol can be stated. *)

From Stdlib Require Import ZArith Bool List Ascii String Lia.
From stdpp Require Import gmap.
Import ListNotations.

Local Open Scope Z_scope.

(** ** Constants of the driver *)

Definition ENV_COMBO_DRV_NAME : string := "env-combo"%string.

(* Sensor register map *)
Definition REG_WHO_AM_I : Z := 0x00.
Definition REG_TEMP_MSB : Z := 0x01.
Definition REG_TEMP_LSB : Z := 0x02.
Definition REG_HUM_OUT : Z := 0x03.
Definition REG_CFG : Z := 0x06.
Definition REG_STATUS : Z := 0x0C.
Definition REG_CALIB_TEMP_MSB : Z := 0x0D.
Definition REG_CALIB_TEMP_LSB : Z := 0x0E.
Definition REG_CALIB_HUM : Z := 0x0F.

Definition CFG_TEMP_EN : Z := 0x40.
Definition CFG_DEFAULT : Z := CFG_TEMP_EN.
Definition WHO_AM_I_EXPECTED : Z := 0xEB.

Definition STATUS_TEMP_RDY_MASK : Z := 0x02.
Definition STATUS_HUM_RDY_MASK : Z := 0x04.

Definition TEMP_SHIFT_BITS : Z := 8.
Definition TEMP_CHANNEL_INDEX : Z := 0.
Definition HUM_CHANNEL_INDEX : Z := 1.
Definition BYTE_MASK : Z := 0xFF.
Definition SENSOR_DATA_BITS : Z := 16.

(* enum sensor_channels *)
Definition TEMP_CHANNEL : Z := TEMP_CHANNEL_INDEX.
Definition HUM_CHANNEL : Z := HUM_CHANNEL_INDEX.

(** ** Constants of the kernel headers the driver includes

    These are not declared in the driver; the values are those of
    [errno-base.h], [errno.h], [linux/iio/types.h] and [linux/iio/iio.h]. *)

Definition EIO : Z := 5.
Definition EAGAIN : Z := 11.
Definition ENOMEM : Z := 12.
Definition ENODEV : Z := 19.
Definition EINVAL : Z := 22.

Definition IIO_VAL_INT : Z := 1.
Definition IIO_CHAN_INFO_RAW : Z := 0.
Definition IIO_TEMP : Z := 9.
Definition IIO_HUMIDITYRELATIVE : Z := 18.
Definition INDIO_DIRECT_MODE : Z := 1.
Definition IIO_CPU : Z := 0.

Definition BIT (n : Z) : Z := Z.shiftl 1 n.

(** ** C integers and pointers *)

Definition INT_MIN : Z := - 2 ^ 31.
Definition INT_MAX : Z := 2 ^ 31 - 1.

(** Two's-complement wrap-around of a mathematical integer to [int]
    (the kernel is built with wrapping signed arithmetic). *)
Definition wrap_int (z : Z) : Z := (z + 2 ^ 31) mod 2 ^ 32 - 2 ^ 31.

Definition int_add (a b : Z) : Z := wrap_int (a + b).

(** Pointers are addresses; [NULL] is address zero. *)
Definition ptr := Z.
Definition NULL : ptr := 0.

(** ** Data model *)

Record mutex := { held : bool }.

Definition mutex_init : mutex := {| held := false |}.
(** [mutex_lock] is modelled for the calling thread alone: it returns with
    the mutex held. *)
Definition mutex_lock (m : mutex) : mutex := {| held := true |}.
Definition mutex_unlock (m : mutex) : mutex := {| held := false |}.

(* Driver private data structure *)
Record env_combo_data := {
  client : ptr;
  lock : mutex;
  temp_calib : Z;
  hum_calib : Z
}.

Record iio_scan_type := {
  sign : ascii;
  realbits : Z;
  storagebits : Z;
  endianness : Z
}.

Record iio_chan_spec := {
  type : Z;
  indexed : Z;
  channel : Z;
  info_mask_separate : Z;
  scan_index : Z;
  scan_type : iio_scan_type
}.

(* IIO channel specifications for temperature and humidity *)
Definition env_combo_channels : list iio_chan_spec :=
  [ {| type := IIO_TEMP;
       indexed := 1;
       channel := TEMP_CHANNEL;
       info_mask_separate := BIT IIO_CHAN_INFO_RAW;
       scan_index := TEMP_CHANNEL;
       scan_type := {| sign := "s"%char;
                       realbits := SENSOR_DATA_BITS;
                       storagebits := SENSOR_DATA_BITS;
                       endianness := IIO_CPU |} |};
    {| type := IIO_HUMIDITYRELATIVE;
       indexed := 1;
       channel := HUM_CHANNEL;
       info_mask_separate := BIT IIO_CHAN_INFO_RAW;
       scan_index := HUM_CHANNEL;
       scan_type := {| sign := "s"%char;
                       realbits := SENSOR_DATA_BITS;
                       storagebits := SENSOR_DATA_BITS;
                       endianness := IIO_CPU |} |} ].

(** The part of [struct iio_dev] the driver touches; [priv] is what
    [iio_priv] returns. *)
Record iio_dev := {
  priv : env_combo_data;
  name : string;
  modes : Z;
  channels : list iio_chan_spec;
  num_channels : Z
}.

Definition iio_priv (indio_dev : iio_dev) : env_combo_data := priv indio_dev.

Definition set_priv (indio_dev : iio_dev) (d : env_combo_data) : iio_dev :=
  {| priv := d;
     name := name indio_dev;
     modes := modes indio_dev;
     channels := channels indio_dev;
     num_channels := num_channels indio_dev |}.

Definition set_lock (d : env_combo_data) (m : mutex) : env_combo_data :=
  {| client := client d; lock := m;
     temp_calib := temp_calib d; hum_calib := hum_calib d |}.

Definition set_temp_calib (d : env_combo_data) (v : Z) : env_combo_data :=
  {| client := client d; lock := lock d;
     temp_calib := v; hum_calib := hum_calib d |}.

Definition set_hum_calib (d : env_combo_data) (v : Z) : env_combo_data :=
  {| client := client d; lock := lock d;
     temp_calib := temp_calib d; hum_calib := v |}.

(** ** The platform: bus transport and IIO framework

    The kernel services the driver calls.  A read returns the byte
    (0..255) or a negative errno; a write returns zero or a negative
    errno; [devm_iio_device_alloc] returns whether the allocation
    succeeded; [devm_iio_device_register] returns zero or an errno. *)

(** [i2c_read_byte_range] is the transport's contract on what a read
    returns.  With it, [(msb << 8) | lsb] is computed on bytes and stays
    within 0..65535, so in the driver only the addition of the calibration
    offset is written with wrap-around. *)
Class Platform (world : Type) := {
  i2c_smbus_read_byte_data : world -> ptr -> Z -> Z * world;
  i2c_smbus_write_byte_data : world -> ptr -> Z -> Z -> Z * world;
  devm_iio_device_alloc : world -> bool * world;
  devm_iio_device_register : world -> iio_dev -> Z * world;
  i2c_read_byte_range :
    forall w c reg, INT_MIN <= fst (i2c_smbus_read_byte_data w c reg) <= 255
}.

(** The kernel's [dev_err_probe] logs the message and returns the error
    code it is given; the device and message arguments do not matter here. *)
Definition dev_err_probe (err : Z) : Z := err.

(** Observable actions of the driver, in program order. *)
Inductive event :=
| EvLock
| EvUnlock
| EvRead (reg : Z)
| EvWrite (reg val : Z).

Definition is_bus_event (e : event) : bool :=
  match e with
  | EvRead _ | EvWrite _ _ => true
  | _ => false
  end.

Definition is_data_read (e : event) : bool :=
  match e with
  | EvRead reg =>
      (reg =? REG_TEMP_MSB) || (reg =? REG_TEMP_LSB) || (reg =? REG_HUM_OUT)
  | _ => false
  end.

Record kstate (world : Type) := {
  k_world : world;
  k_trace : list event;
  k_mem : gmap Z Z;
  k_iio : list iio_dev
}.
Arguments k_world {world} _.
Arguments k_trace {world} _.
Arguments k_mem {world} _.
Arguments k_iio {world} _.

Section Driver.

Context {world : Type} `{Platform world}.

Definition emit (e : event) (k : kstate world) : kstate world :=
  {| k_world := k_world k; k_trace := k_trace k ++ [e];
     k_mem := k_mem k; k_iio := k_iio k |}.

Definition bus_read (c : ptr) (reg : Z) (k : kstate world) : Z * kstate world :=
  let '(v, w) := i2c_smbus_read_byte_data (k_world k) c reg in
  (v, {| k_world := w; k_trace := k_trace k ++ [EvRead reg];
         k_mem := k_mem k; k_iio := k_iio k |}).

Definition bus_write (c : ptr) (reg val : Z) (k : kstate world) : Z * kstate world :=
  let '(r, w) := i2c_smbus_write_byte_data (k_world k) c reg val in
  (r, {| k_world := w; k_trace := k_trace k ++ [EvWrite reg val];
         k_mem := k_mem k; k_iio := k_iio k |}).

(** [*p = v] *)
Definition store_int (p : ptr) (v : Z) (k : kstate world) : kstate world :=
  {| k_world := k_world k; k_trace := k_trace k;
     k_mem := <[p := v]> (k_mem k); k_iio := k_iio k |}.

Definition iio_alloc (k : kstate world) : bool * kstate world :=
  let '(ok, w) := devm_iio_device_alloc (k_world k) in
  (ok, {| k_world := w; k_trace := k_trace k;
          k_mem := k_mem k; k_iio := k_iio k |}).

(** The device is known to the IIO core exactly when registration
    returns zero. *)
Definition iio_register (indio_dev : iio_dev) (k : kstate world) : Z * kstate world :=
  let '(r, w) := devm_iio_device_register (k_world k) indio_dev in
  (r, {| k_world := w; k_trace := k_trace k; k_mem := k_mem k;
         k_iio := if r =? 0 then k_iio k ++ [indio_dev] else k_iio k |}).

(** The [out:] label of [env_combo_read_raw]. *)
Definition read_raw_out (indio_dev : iio_dev) (ret : Z) (k : kstate world)
  : Z * iio_dev * kstate world :=
  let data := iio_priv indio_dev in
  (ret, set_priv indio_dev (set_lock data (mutex_unlock (lock data))),
   emit EvUnlock k).

(** Reads raw data from the sensor for a specified IIO channel.
    [chan] is [None] for a NULL channel pointer; [val] and [val2] are
    addresses of the caller's output cells. *)
Definition env_combo_read_raw (indio_dev : iio_dev) (chan : option iio_chan_spec)
    (val val2 : ptr) (mask : Z) (k : kstate world) : Z * iio_dev * kstate world :=
  let data := iio_priv indio_dev in
  let client := client data in
  match chan with
  | None => (- EINVAL, indio_dev, k)
  | Some chan =>
    if val =? NULL then (- EINVAL, indio_dev, k) else
    if negb (mask =? IIO_CHAN_INFO_RAW) then (- EINVAL, indio_dev, k) else
    let indio_dev := set_priv indio_dev (set_lock data (mutex_lock (lock data))) in
    let k := emit EvLock k in
    (* Read sensor status register to check readiness *)
    let '(status, k) := bus_read client REG_STATUS k in
    if status <? 0 then read_raw_out indio_dev (- EIO) k else
    if type chan =? IIO_TEMP then
      if Z.land status STATUS_TEMP_RDY_MASK =? 0 then
        read_raw_out indio_dev (- EAGAIN) k
      else
        let '(temp_msb, k) := bus_read client REG_TEMP_MSB k in
        if temp_msb <? 0 then read_raw_out indio_dev (- EIO) k else
        let '(temp_lsb, k) := bus_read client REG_TEMP_LSB k in
        if temp_lsb <? 0 then read_raw_out indio_dev (- EIO) k else
        let raw_data :=
          int_add (Z.lor (Z.shiftl temp_msb TEMP_SHIFT_BITS)
                         (Z.land temp_lsb BYTE_MASK))
                  (temp_calib data) in
        let k := store_int val raw_data k in
        read_raw_out indio_dev IIO_VAL_INT k
    else if type chan =? IIO_HUMIDITYRELATIVE then
      if Z.land status STATUS_HUM_RDY_MASK =? 0 then
        read_raw_out indio_dev (- EAGAIN) k
      else
        let '(hum_lsb, k) := bus_read client REG_HUM_OUT k in
        if hum_lsb <? 0 then read_raw_out indio_dev (- EIO) k else
        let raw_data := int_add hum_lsb (hum_calib data) in
        let k := store_int val raw_data k in
        read_raw_out indio_dev IIO_VAL_INT k
    else
      read_raw_out indio_dev (- EINVAL) k
  end.

(** Probes and initializes the sensor device.  The freshly allocated
    private data is zeroed; logging calls have no effect on the state
    modelled here. *)
Definition env_combo_probe (client id : ptr) (k : kstate world) : Z * kstate world :=
  if client =? NULL then (- EINVAL, k) else
  if id =? NULL then (- EINVAL, k) else
  (* Verify the device identity *)
  let '(id_reg, k) := bus_read client REG_WHO_AM_I k in
  if (id_reg <? 0) || negb (id_reg =? WHO_AM_I_EXPECTED) then (- ENODEV, k) else
  let '(allocated, k) := iio_alloc k in
  if negb allocated then (- ENOMEM, k) else
  let data := {| client := client; lock := mutex_init;
                 temp_calib := 0; hum_calib := 0 |} in
  (* Read and combine temperature calibration values *)
  let '(calib_msb, k) := bus_read client REG_CALIB_TEMP_MSB k in
  if calib_msb <? 0 then (- EIO, k) else
  let '(calib_lsb, k) := bus_read client REG_CALIB_TEMP_LSB k in
  if calib_lsb <? 0 then (- EIO, k) else
  let data := set_temp_calib data
                (Z.lor (Z.shiftl calib_msb TEMP_SHIFT_BITS) calib_lsb) in
  (* Read humidity calibration value *)
  let '(calib_msb, k) := bus_read client REG_CALIB_HUM k in
  if calib_msb <? 0 then (- EIO, k) else
  let data := set_hum_calib data calib_msb in
  (* Configure the sensor with default settings *)
  let '(ret, k) := bus_write client REG_CFG CFG_DEFAULT k in
  if ret <? 0 then (dev_err_probe ret, k) else
  (* Initialize the IIO device structure *)
  let indio_dev := {| priv := data;
                      name := ENV_COMBO_DRV_NAME;
                      modes := INDIO_DIRECT_MODE;
                      channels := env_combo_channels;
                      num_channels := Z.of_nat (length env_combo_channels) |} in
  iio_register indio_dev k.

End Driver.

Arguments env_combo_read_raw {world _} indio_dev chan val val2 mask k.
Arguments env_combo_probe {world _} client id k.

(** Projections of the triple [env_combo_read_raw] returns. *)
Definition rr_ret {world} (r : Z * iio_dev * kstate world) : Z := fst (fst r).
Definition rr_dev {world} (r : Z * iio_dev * kstate world) : iio_dev := snd (fst r).
Definition rr_state {world} (r : Z * iio_dev * kstate world) : kstate world := snd r.

(** Events a call appended to the trace [before]. *)
Definition events_since (before after : list event) : list event :=
  skipn (length before) after.

(** The device [env_combo_probe] registers after reading the calibration
    bytes [msb], [lsb] and [hum]. *)
Definition probed_dev (client : ptr) (msb lsb hum : Z) : iio_dev :=
  {| priv := {| client := client; lock := mutex_init;
                temp_calib := Z.lor (Z.shiftl msb TEMP_SHIFT_BITS) lsb;
                hum_calib := hum |};
     name := ENV_COMBO_DRV_NAME;
     modes := INDIO_DIRECT_MODE;
     channels := env_combo_channels;
     num_channels := Z.of_nat (length env_combo_channels) |}.

(** The bus transactions of a complete probe, in order. *)
Definition probe_sequence : list event :=
  [ EvRead REG_WHO_AM_I; EvRead REG_CALIB_TEMP_MSB; EvRead REG_CALIB_TEMP_LSB;
    EvRead REG_CALIB_HUM; EvWrite REG_CFG CFG_DEFAULT ].

(** ** States a call leaves behind *)

Section Outcomes.

Context {world : Type} `{Platform world}.

Implicit Types (k : kstate world) (w : world) (c : ptr) (indio_dev : iio_dev).

(** The session as a call leaves it once the guard has been taken and
    released. *)
Definition released indio_dev : iio_dev :=
  set_priv indio_dev
    (set_lock (iio_priv indio_dev) (mutex_unlock (lock (iio_priv indio_dev)))).

Definition after_call k (w : world) (evs : list event) (mem : gmap Z Z)
  : kstate world :=
  {| k_world := w; k_trace := k_trace k ++ evs; k_mem := mem; k_iio := k_iio k |}.

(** The platform's answers along the path of a probe that starts in
    world [w] for client [c]: each step runs in the world the previous
    one left. *)
Definition ans_id w c := i2c_smbus_read_byte_data w c REG_WHO_AM_I.
Definition ans_alloc w c := devm_iio_device_alloc (snd (ans_id w c)).
Definition ans_msb w c :=
  i2c_smbus_read_byte_data (snd (ans_alloc w c)) c REG_CALIB_TEMP_MSB.
Definition ans_lsb w c :=
  i2c_smbus_read_byte_data (snd (ans_msb w c)) c REG_CALIB_TEMP_LSB.
Definition ans_hum w c :=
  i2c_smbus_read_byte_data (snd (ans_lsb w c)) c REG_CALIB_HUM.
Definition ans_cfg w c :=
  i2c_smbus_write_byte_data (snd (ans_hum w c)) c REG_CFG CFG_DEFAULT.
Definition ans_dev w c : iio_dev :=
  probed_dev c (fst (ans_msb w c)) (fst (ans_lsb w c)) (fst (ans_hum w c)).
Definition ans_reg w c :=
  devm_iio_device_register (snd (ans_cfg w c)) (ans_dev w c).

Definition after_probe k w (evs : list event) (devs : list iio_dev)
  : kstate world :=
  {| k_world := w; k_trace := k_trace k ++ evs; k_mem := k_mem k;
     k_iio := k_iio k ++ devs |}.

End Outcomes.

(** ** What the specification says of the calibration offsets

    The specification reads the calibration registers as two's-complement
    quantities of 16 and 8 bits. *)
Definition sign_extend (bits : Z) (z : Z) : Z :=
  if z <? 2 ^ (bits - 1) then z else z - 2 ^ bits.

Definition spec_temp_calib (msb lsb : Z) : Z :=
  sign_extend 16 (Z.lor (Z.shiftl msb 8) lsb).

Definition spec_hum_calib (b : Z) : Z := sign_extend 8 b.

(** ** A simulated device

    A register file with fault injection, used to run the driver on
    concrete inputs. *)
Record sim_device := {
  sim_regs : gmap Z Z;
  sim_faulty : list Z;
  sim_write_ret : Z;
  sim_alloc_ok : bool;
  sim_register_ret : Z
}.

Definition sim_read (s : sim_device) (c : ptr) (reg : Z) : Z * sim_device :=
  if existsb (Z.eqb reg) (sim_faulty s) then (- EIO, s)
  else (default 0 (sim_regs s !! reg) mod 256, s).

Definition sim_write (s : sim_device) (c : ptr) (reg val : Z) : Z * sim_device :=
  (sim_write_ret s,
   if sim_write_ret s <? 0 then s
   else {| sim_regs := <[reg := val mod 256]> (sim_regs s);
           sim_faulty := sim_faulty s;
           sim_write_ret := sim_write_ret s;
           sim_alloc_ok := sim_alloc_ok s;
           sim_register_ret := sim_register_ret s |}).

Lemma sim_read_range s c reg : INT_MIN <= fst (sim_read s c reg) <= 255.
Proof.
  unfold sim_read, INT_MIN, EIO.
  destruct (existsb _ _); simpl.
  - lia.
  - pose proof (Z.mod_pos_bound (default 0 (sim_regs s !! reg)) 256). lia.
Qed.

#[export] Instance sim_platform : Platform sim_device := {
  i2c_smbus_read_byte_data := sim_read;
  i2c_smbus_write_byte_data := sim_write;
  devm_iio_device_alloc := fun s => (sim_alloc_ok s, s);
  devm_iio_device_register := fun s _ => (sim_register_ret s, s);
  i2c_read_byte_range := sim_read_range
}.

Definition sim_boot (regs : list (Z * Z)) (faulty : list Z) (write_ret : Z)
    (alloc_ok : bool) (register_ret : Z) : kstate sim_device :=
  {| k_world := {| sim_regs := list_to_map regs; sim_faulty := faulty;
                   sim_write_ret := write_ret; sim_alloc_ok := alloc_ok;
                   sim_register_ret := register_ret |};
     k_trace := []; k_mem := ∅; k_iio := [] |}.

(** A healthy device: identity 0xEB, calibration bytes 0x01, 0x02 and
    0x05, both channels ready, temperature 0x0064, humidity 0x32. *)
Definition sim_regs_good : list (Z * Z) :=
  [ (REG_WHO_AM_I, 0xEB); (REG_CALIB_TEMP_MSB, 0x01); (REG_CALIB_TEMP_LSB, 0x02);
    (REG_CALIB_HUM, 0x05); (REG_STATUS, 0x06); (REG_TEMP_MSB, 0x00);
    (REG_TEMP_LSB, 0x64); (REG_HUM_OUT, 0x32) ].

(** A device whose calibration registers all hold 0xFF. *)
Definition sim_regs_ff : list (Z * Z) :=
  [ (REG_WHO_AM_I, 0xEB); (REG_CALIB_TEMP_MSB, 0xFF); (REG_CALIB_TEMP_LSB, 0xFF);
    (REG_CALIB_HUM, 0xFF) ].

(** A session as the caller holds it after a successful probe. *)
Definition sim_session (tcal hcal : Z) : iio_dev :=
  {| priv := {| client := 0x40; lock := mutex_init;
                temp_calib := tcal; hum_calib := hcal |};
     name := ENV_COMBO_DRV_NAME; modes := INDIO_DIRECT_MODE;
     channels := env_combo_channels; num_channels := 2 |}.

Definition temp_chan : iio_chan_spec := nth 0 env_combo_channels
  {| type := 0; indexed := 0; channel := 0; info_mask_separate := 0;
     scan_index := 0;
     scan_type := {| sign := "s"%char; realbits := 0; storagebits := 0;
                     endianness := 0 |} |}.

Definition hum_chan : iio_chan_spec := nth 1 env_combo_channels temp_chan.

(** A channel of a type the driver does not serve (IIO_VOLTAGE). *)
Definition volt_chan : iio_chan_spec :=
  {| type := 0; indexed := 1; channel := 2; info_mask_separate := 1;
     scan_index := 2; scan_type := scan_type temp_chan |}.

(** * Properties *)

(** ** Integer facts *)

Lemma wrap_int_small z : INT_MIN <= z <= INT_MAX -> wrap_int z = z.
Proof.
  unfold wrap_int, INT_MIN, INT_MAX. intros Hz.
  rewrite Z.mod_small; lia.
Qed.

Lemma int_add_exact a b : INT_MIN <= a + b <= INT_MAX -> int_add a b = a + b.
Proof. apply wrap_int_small. Qed.

Lemma byte_land_mask b : 0 <= b <= 255 -> Z.land b BYTE_MASK = b.
Proof.
  intros Hb. change BYTE_MASK with (Z.ones 8).
  rewrite Z.land_ones by lia. apply Z.mod_small. lia.
Qed.

(** Two bytes combine into a 16-bit unsigned quantity. *)
Lemma combine_bytes_range msb lsb :
  0 <= msb <= 255 -> 0 <= lsb <= 255 ->
  Z.lor (Z.shiftl msb TEMP_SHIFT_BITS) lsb = msb * 256 + lsb /\
  0 <= Z.lor (Z.shiftl msb TEMP_SHIFT_BITS) lsb <= 65535.
Proof.
  intros Hm Hl. unfold TEMP_SHIFT_BITS.
  assert (Hdisj : Z.land (Z.shiftl msb 8) lsb = 0).
  { apply Z.bits_inj'. intros n Hn. rewrite Z.land_spec, Z.bits_0.
    destruct (Z.ltb_spec n 8).
    - rewrite Z.shiftl_spec_low by lia. reflexivity.
    - assert (Z.testbit lsb n = false) as ->; [| apply andb_false_r].
      destruct (Z.eq_dec lsb 0) as [->|]; [apply Z.bits_0|].
      apply Z.bits_above_log2; [lia|].
      assert (Z.log2 lsb < 8); [| lia].
      apply Z.log2_lt_pow2; lia. }
  rewrite <- Z.add_nocarry_lor by exact Hdisj.
  rewrite Z.shiftl_mul_pow2 by lia. change (2 ^ 8) with 256. lia.
Qed.

Section DriverFacts.

Context {world : Type} `{Platform world}.

Implicit Types (k : kstate world) (indio_dev : iio_dev) (chan : iio_chan_spec).

(** What a bus read leaves behind. *)
Lemma bus_read_eq c reg k v w :
  i2c_smbus_read_byte_data (k_world k) c reg = (v, w) ->
  bus_read c reg k =
    (v, {| k_world := w; k_trace := k_trace k ++ [EvRead reg];
           k_mem := k_mem k; k_iio := k_iio k |}).
Proof. intros E. unfold bus_read. rewrite E. reflexivity. Qed.

Lemma bus_write_eq c reg val k r w :
  i2c_smbus_write_byte_data (k_world k) c reg val = (r, w) ->
  bus_write c reg val k =
    (r, {| k_world := w; k_trace := k_trace k ++ [EvWrite reg val];
           k_mem := k_mem k; k_iio := k_iio k |}).
Proof. intros E. unfold bus_write. rewrite E. reflexivity. Qed.

(** A successful read returns a byte. *)
Lemma read_ok_byte w c reg v w' :
  i2c_smbus_read_byte_data w c reg = (v, w') -> 0 <= v -> 0 <= v <= 255.
Proof.
  intros E Hv. pose proof (i2c_read_byte_range w c reg) as R.
  rewrite E in R. simpl in R. lia.
Qed.

Ltac read_step E :=
  unfold bus_read; simpl k_world; rewrite E; simpl.

Ltac trace_norm :=
  unfold after_call, read_raw_out, released, emit, store_int; simpl;
  repeat rewrite <- app_assoc; simpl.

(** Wrong info mask: the call returns before touching anything. *)
Lemma read_raw_bad_mask indio_dev ochan val val2 mask k :
  mask <> IIO_CHAN_INFO_RAW ->
  env_combo_read_raw indio_dev ochan val val2 mask k = (- EINVAL, indio_dev, k).
Proof.
  intros Hm. unfold env_combo_read_raw.
  destruct ochan as [chan|]; [| reflexivity].
  destruct (val =? NULL); [reflexivity |].
  apply Z.eqb_neq in Hm. rewrite Hm. reflexivity.
Qed.

(** The status read fails. *)
Lemma read_raw_status_fail indio_dev chan val val2 k status w1 :
  val <> NULL ->
  i2c_smbus_read_byte_data (k_world k) (client (iio_priv indio_dev)) REG_STATUS
    = (status, w1) ->
  status < 0 ->
  env_combo_read_raw indio_dev (Some chan) val val2 IIO_CHAN_INFO_RAW k =
    (- EIO, released indio_dev,
     after_call k w1 [EvLock; EvRead REG_STATUS; EvUnlock] (k_mem k)).
Proof.
  intros Hv E Hs. unfold env_combo_read_raw.
  apply Z.eqb_neq in Hv. rewrite Hv. simpl.
  read_step E. apply Z.ltb_lt in Hs. rewrite Hs.
  trace_norm. reflexivity.
Qed.

(** Temperature requested, readiness bit clear. *)
Lemma read_raw_temp_not_ready indio_dev chan val val2 k status w1 :
  val <> NULL ->
  type chan = IIO_TEMP ->
  i2c_smbus_read_byte_data (k_world k) (client (iio_priv indio_dev)) REG_STATUS
    = (status, w1) ->
  0 <= status ->
  Z.land status STATUS_TEMP_RDY_MASK = 0 ->
  env_combo_read_raw indio_dev (Some chan) val val2 IIO_CHAN_INFO_RAW k =
    (- EAGAIN, released indio_dev,
     after_call k w1 [EvLock; EvRead REG_STATUS; EvUnlock] (k_mem k)).
Proof.
  intros Hv Ht E Hs Hb. unfold env_combo_read_raw.
  apply Z.eqb_neq in Hv. rewrite Hv. simpl.
  read_step E. apply Z.ltb_ge in Hs. rewrite Hs, Ht. simpl.
  rewrite Hb. simpl. trace_norm. reflexivity.
Qed.

(** Humidity requested, readiness bit clear. *)
Lemma read_raw_hum_not_ready indio_dev chan val val2 k status w1 :
  val <> NULL ->
  type chan = IIO_HUMIDITYRELATIVE ->
  i2c_smbus_read_byte_data (k_world k) (client (iio_priv indio_dev)) REG_STATUS
    = (status, w1) ->
  0 <= status ->
  Z.land status STATUS_HUM_RDY_MASK = 0 ->
  env_combo_read_raw indio_dev (Some chan) val val2 IIO_CHAN_INFO_RAW k =
    (- EAGAIN, released indio_dev,
     after_call k w1 [EvLock; EvRead REG_STATUS; EvUnlock] (k_mem k)).
Proof.
  intros Hv Ht E Hs Hb. unfold env_combo_read_raw.
  apply Z.eqb_neq in Hv. rewrite Hv. simpl.
  read_step E. apply Z.ltb_ge in Hs. rewrite Hs, Ht. simpl.
  rewrite Hb. simpl. trace_norm. reflexivity.
Qed.

(** Temperature read, every transaction succeeding. *)
Lemma read_raw_temp_ok indio_dev chan val val2 k status w1 msb w2 lsb w3 :
  val <> NULL ->
  type chan = IIO_TEMP ->
  i2c_smbus_read_byte_data (k_world k) (client (iio_priv indio_dev)) REG_STATUS
    = (status, w1) ->
  0 <= status ->
  Z.land status STATUS_TEMP_RDY_MASK <> 0 ->
  i2c_smbus_read_byte_data w1 (client (iio_priv indio_dev)) REG_TEMP_MSB
    = (msb, w2) ->
  0 <= msb ->
  i2c_smbus_read_byte_data w2 (client (iio_priv indio_dev)) REG_TEMP_LSB
    = (lsb, w3) ->
  0 <= lsb ->
  env_combo_read_raw indio_dev (Some chan) val val2 IIO_CHAN_INFO_RAW k =
    (IIO_VAL_INT, released indio_dev,
     after_call k w3
       [EvLock; EvRead REG_STATUS; EvRead REG_TEMP_MSB; EvRead REG_TEMP_LSB;
        EvUnlock]
       (<[val := int_add (Z.lor (Z.shiftl msb 8) (Z.land lsb 0xFF))
                         (temp_calib (iio_priv indio_dev))]> (k_mem k))).
Proof.
  intros Hv Ht E Hs Hb E1 Hm E2 Hl. unfold env_combo_read_raw.
  apply Z.eqb_neq in Hv. rewrite Hv. simpl.
  read_step E. apply Z.ltb_ge in Hs. rewrite Hs, Ht. simpl.
  apply Z.eqb_neq in Hb. rewrite Hb.
  read_step E1. apply Z.ltb_ge in Hm. rewrite Hm.
  read_step E2. apply Z.ltb_ge in Hl. rewrite Hl.
  trace_norm. reflexivity.
Qed.

(** Humidity read, every transaction succeeding. *)
Lemma read_raw_hum_ok indio_dev chan val val2 k status w1 hum w2 :
  val <> NULL ->
  type chan = IIO_HUMIDITYRELATIVE ->
  i2c_smbus_read_byte_data (k_world k) (client (iio_priv indio_dev)) REG_STATUS
    = (status, w1) ->
  0 <= status ->
  Z.land status STATUS_HUM_RDY_MASK <> 0 ->
  i2c_smbus_read_byte_data w1 (client (iio_priv indio_dev)) REG_HUM_OUT
    = (hum, w2) ->
  0 <= hum ->
  env_combo_read_raw indio_dev (Some chan) val val2 IIO_CHAN_INFO_RAW k =
    (IIO_VAL_INT, released indio_dev,
     after_call k w2 [EvLock; EvRead REG_STATUS; EvRead REG_HUM_OUT; EvUnlock]
       (<[val := int_add hum (hum_calib (iio_priv indio_dev))]> (k_mem k))).
Proof.
  intros Hv Ht E Hs Hb E1 Hh. unfold env_combo_read_raw.
  apply Z.eqb_neq in Hv. rewrite Hv. simpl.
  read_step E. apply Z.ltb_ge in Hs. rewrite Hs, Ht. simpl.
  apply Z.eqb_neq in Hb. rewrite Hb.
  read_step E1. apply Z.ltb_ge in Hh. rewrite Hh.
  trace_norm. reflexivity.
Qed.

(** A channel type the driver does not serve: the status register is
    still read, under the guard, before the type is looked at. *)
Lemma read_raw_other_type indio_dev chan val val2 k status w1 :
  val <> NULL ->
  type chan <> IIO_TEMP ->
  type chan <> IIO_HUMIDITYRELATIVE ->
  i2c_smbus_read_byte_data (k_world k) (client (iio_priv indio_dev)) REG_STATUS
    = (status, w1) ->
  env_combo_read_raw indio_dev (Some chan) val val2 IIO_CHAN_INFO_RAW k =
    ((if status <? 0 then - EIO else - EINVAL), released indio_dev,
     after_call k w1 [EvLock; EvRead REG_STATUS; EvUnlock] (k_mem k)).
Proof.
  intros Hv Ht Hh E. unfold env_combo_read_raw.
  apply Z.eqb_neq in Hv. rewrite Hv. simpl.
  read_step E. apply Z.eqb_neq in Ht, Hh.
  destruct (status <? 0); [trace_norm; reflexivity |].
  rewrite Ht, Hh. trace_norm. reflexivity.
Qed.

End DriverFacts.

Section ReadChannel.

Context {world : Type} `{Platform world}.

Implicit Types (k : kstate world) (indio_dev : iio_dev) (chan : iio_chan_spec).

Lemma events_since_app (t evs : list event) : events_since t (t ++ evs) = evs.
Proof. unfold events_since. apply drop_app_length. Qed.

(** Every call either returns at once, or takes the guard and ends in
    one of two ways: with a negative code and the caller's memory as it
    was, or with [IIO_VAL_INT] and one value stored at [val]. *)
Lemma read_raw_cases indio_dev ochan val val2 mask k :
  let r := env_combo_read_raw indio_dev ochan val val2 mask k in
  r = (- EINVAL, indio_dev, k) \/
  (exists ret w evs, ret < 0 /\
     r = (ret, released indio_dev, after_call k w evs (k_mem k))) \/
  (exists w evs v,
     r = (IIO_VAL_INT, released indio_dev,
          after_call k w evs (<[val := v]> (k_mem k)))).
Proof.
  intros r. subst r. unfold env_combo_read_raw.
  destruct ochan as [chan|]; [| left; reflexivity].
  destruct (val =? NULL); [left; reflexivity |].
  destruct (negb (mask =? IIO_CHAN_INFO_RAW)); [left; reflexivity |].
  right. unfold bus_read. simpl.
  repeat match goal with
  | |- context [i2c_smbus_read_byte_data ?w ?c ?reg] =>
      destruct (i2c_smbus_read_byte_data w c reg) as [? ?]; simpl
  | |- context [if ?b then _ else _] => destruct b; simpl
  end;
  unfold read_raw_out, emit, store_int; simpl; repeat rewrite <- app_assoc; simpl;
  first
    [ right; do 3 eexists; unfold after_call; reflexivity
    | left; do 3 eexists; split; [| unfold after_call; reflexivity];
      unfold EIO, EAGAIN, EINVAL; lia ].
Qed.

(** C9.  A call whose info mask is not the raw-value request returns
    [-EINVAL] (InvalidArgument) before the guard is taken and before any
    bus transaction: nothing is appended to the trace, no lock or status
    read occurs, and session, bus and memory are exactly as before. *)
Theorem read_raw_rejects_mask_before_guard indio_dev ochan val val2 mask k :
  mask <> IIO_CHAN_INFO_RAW ->
  let r := env_combo_read_raw indio_dev ochan val val2 mask k in
  rr_ret r = - EINVAL /\
  k_trace (rr_state r) = k_trace k /\
  events_since (k_trace k) (k_trace (rr_state r)) = [] /\
  rr_state r = k /\
  rr_dev r = indio_dev.
Proof.
  intros Hm r. subst r. rewrite (read_raw_bad_mask _ _ _ _ _ _ Hm).
  unfold rr_ret, rr_state, rr_dev. simpl.
  repeat split.
  rewrite <- (app_nil_r (k_trace k)) at 2. apply events_since_app.
Qed.

(** C3.  When the status read succeeds and the readiness bit of the
    requested channel (0x02 for temperature, 0x04 for humidity) is clear,
    the call returns [-EAGAIN] (NotReady); its only bus transaction is the
    status read, so no read of TEMP_MSB, TEMP_LSB or HUM_OUT occurs, and
    the guard is released. *)
Theorem read_raw_not_ready_no_data_read indio_dev chan val val2 k status w1 :
  val <> NULL ->
  i2c_smbus_read_byte_data (k_world k) (client (iio_priv indio_dev)) REG_STATUS
    = (status, w1) ->
  0 <= status ->
  (type chan = IIO_TEMP /\ Z.land status 0x02 = 0) \/
  (type chan = IIO_HUMIDITYRELATIVE /\ Z.land status 0x04 = 0) ->
  let r := env_combo_read_raw indio_dev (Some chan) val val2 IIO_CHAN_INFO_RAW k in
  let evs := events_since (k_trace k) (k_trace (rr_state r)) in
  rr_ret r = - EAGAIN /\
  evs = [EvLock; EvRead REG_STATUS; EvUnlock] /\
  filter is_data_read evs = [] /\
  k_mem (rr_state r) = k_mem k.
Proof.
  intros Hv E Hs Hbit r evs. subst evs r.
  assert (Hr : env_combo_read_raw indio_dev (Some chan) val val2 IIO_CHAN_INFO_RAW k =
    (- EAGAIN, released indio_dev,
     after_call k w1 [EvLock; EvRead REG_STATUS; EvUnlock] (k_mem k))).
  { destruct Hbit as [[Ht Hb] | [Ht Hb]].
    - eapply read_raw_temp_not_ready; eassumption.
    - eapply read_raw_hum_not_ready; eassumption. }
  rewrite Hr. unfold rr_ret, rr_state, after_call. simpl.
  rewrite events_since_app. repeat split.
Qed.

(** C1.  On a successful call (status read succeeds with the channel's
    readiness bit set, data reads succeed) the value stored for the caller
    is, for temperature, [((msb << 8) | (lsb & 0xFF))] plus the session's
    temperature offset, the MSB register being read before the LSB
    register; for humidity, the HUM_OUT byte plus the session's humidity
    offset.  The sum is the C [int] sum; it is the exact integer sum
    whenever that fits an [int], which is so for every offset the probe
    can load. *)
Theorem read_raw_calibrated_value :
  (forall indio_dev chan val val2 k status w1 msb w2 lsb w3,
     val <> NULL ->
     type chan = IIO_TEMP ->
     i2c_smbus_read_byte_data (k_world k) (client (iio_priv indio_dev)) REG_STATUS
       = (status, w1) ->
     0 <= status ->
     Z.land status 0x02 <> 0 ->
     i2c_smbus_read_byte_data w1 (client (iio_priv indio_dev)) REG_TEMP_MSB
       = (msb, w2) ->
     0 <= msb ->
     i2c_smbus_read_byte_data w2 (client (iio_priv indio_dev)) REG_TEMP_LSB
       = (lsb, w3) ->
     0 <= lsb ->
     let r := env_combo_read_raw indio_dev (Some chan) val val2 IIO_CHAN_INFO_RAW k in
     let raw := Z.lor (Z.shiftl msb 8) (Z.land lsb 0xFF) in
     let cal := temp_calib (iio_priv indio_dev) in
     rr_ret r = IIO_VAL_INT /\
     k_mem (rr_state r) !! val = Some (int_add raw cal) /\
     (INT_MIN <= raw + cal <= INT_MAX ->
      k_mem (rr_state r) !! val = Some (raw + cal)) /\
     events_since (k_trace k) (k_trace (rr_state r)) =
       [EvLock; EvRead REG_STATUS; EvRead REG_TEMP_MSB; EvRead REG_TEMP_LSB;
        EvUnlock]) /\
  (forall indio_dev chan val val2 k status w1 hum w2,
     val <> NULL ->
     type chan = IIO_HUMIDITYRELATIVE ->
     i2c_smbus_read_byte_data (k_world k) (client (iio_priv indio_dev)) REG_STATUS
       = (status, w1) ->
     0 <= status ->
     Z.land status 0x04 <> 0 ->
     i2c_smbus_read_byte_data w1 (client (iio_priv indio_dev)) REG_HUM_OUT
       = (hum, w2) ->
     0 <= hum ->
     let r := env_combo_read_raw indio_dev (Some chan) val val2 IIO_CHAN_INFO_RAW k in
     let cal := hum_calib (iio_priv indio_dev) in
     rr_ret r = IIO_VAL_INT /\
     k_mem (rr_state r) !! val = Some (int_add hum cal) /\
     (INT_MIN <= hum + cal <= INT_MAX ->
      k_mem (rr_state r) !! val = Some (hum + cal)) /\
     events_since (k_trace k) (k_trace (rr_state r)) =
       [EvLock; EvRead REG_STATUS; EvRead REG_HUM_OUT; EvUnlock]).
Proof.
  split.
  - intros indio_dev chan val val2 k status w1 msb w2 lsb w3
      Hv Ht E Hs Hb E1 Hm E2 Hl r raw cal. subst r raw cal.
    rewrite (read_raw_temp_ok _ _ _ _ _ _ _ _ _ _ _ Hv Ht E Hs Hb E1 Hm E2 Hl).
    unfold rr_ret, rr_state, after_call. simpl.
    rewrite events_since_app, lookup_insert_eq.
    repeat split. intros Hfit. rewrite int_add_exact by exact Hfit. reflexivity.
  - intros indio_dev chan val val2 k status w1 hum w2
      Hv Ht E Hs Hb E1 Hh r cal. subst r cal.
    rewrite (read_raw_hum_ok _ _ _ _ _ _ _ _ _ Hv Ht E Hs Hb E1 Hh).
    unfold rr_ret, rr_state, after_call. simpl.
    rewrite events_since_app, lookup_insert_eq.
    repeat split. intros Hfit. rewrite int_add_exact by exact Hfit. reflexivity.
Qed.

(** With an offset the probe can load (0..65535, resp. 0..255) and the
    bytes a read returns, the sums a successful call computes never leave
    the [int] range, so they are exact. *)
Lemma probed_sums_fit msb lsb hum tcal hcal :
  0 <= msb <= 255 -> 0 <= lsb <= 255 -> 0 <= hum <= 255 ->
  0 <= tcal <= 65535 -> 0 <= hcal <= 255 ->
  INT_MIN <= Z.lor (Z.shiftl msb 8) (Z.land lsb 0xFF) + tcal <= INT_MAX /\
  INT_MIN <= hum + hcal <= INT_MAX.
Proof.
  intros Hm Hl Hh Ht Hc.
  change 0xFF with BYTE_MASK. rewrite byte_land_mask by exact Hl.
  destruct (combine_bytes_range msb lsb Hm Hl) as [_ Hr].
  unfold TEMP_SHIFT_BITS in Hr. unfold INT_MIN, INT_MAX. lia.
Qed.

(** C4 (as amended).  For a channel type other than temperature and
    humidity the call still takes the guard and reads the status
    register, and that is its only bus transaction; it returns [-EINVAL]
    (InvalidArgument) when the status read succeeds and [-EIO] when it
    fails, and stores nothing for the caller. *)
Theorem read_raw_invalid_channel indio_dev chan val val2 k :
  val <> NULL ->
  type chan <> IIO_TEMP ->
  type chan <> IIO_HUMIDITYRELATIVE ->
  let r := env_combo_read_raw indio_dev (Some chan) val val2 IIO_CHAN_INFO_RAW k in
  let status :=
    fst (i2c_smbus_read_byte_data (k_world k) (client (iio_priv indio_dev))
           REG_STATUS) in
  let evs := events_since (k_trace k) (k_trace (rr_state r)) in
  rr_ret r = (if status <? 0 then - EIO else - EINVAL) /\
  evs = [EvLock; EvRead REG_STATUS; EvUnlock] /\
  filter is_bus_event evs = [EvRead REG_STATUS] /\
  k_mem (rr_state r) = k_mem k.
Proof.
  intros Hv Ht Hh r status evs. subst evs status r.
  destruct (i2c_smbus_read_byte_data (k_world k) (client (iio_priv indio_dev))
              REG_STATUS) as [status w1] eqn:E.
  rewrite (read_raw_other_type _ _ _ _ _ _ _ Hv Ht Hh E).
  unfold rr_ret, rr_state, after_call. simpl.
  rewrite events_since_app. repeat split.
Qed.

(** C10.  The caller's memory is written on the success path only: a call
    either returns [IIO_VAL_INT] having stored one value at [val] and
    nothing else, or returns a negative code (status-read or data-read
    [-EIO], [-EAGAIN], [-EINVAL]) with the whole memory, the cell at [val]
    included, exactly as it was. *)
Theorem read_raw_output_written_only_on_success indio_dev ochan val val2 mask k :
  let r := env_combo_read_raw indio_dev ochan val val2 mask k in
  (rr_ret r = IIO_VAL_INT /\ exists v, k_mem (rr_state r) = <[val := v]> (k_mem k)) \/
  (rr_ret r < 0 /\ k_mem (rr_state r) = k_mem k).
Proof.
  intros r.
  destruct (read_raw_cases indio_dev ochan val val2 mask k)
    as [E | [(ret & w & evs & Hneg & E) | (w & evs & v & E)]];
    fold r in E; rewrite E; unfold rr_ret, rr_state; simpl.
  - right. split; [unfold EINVAL; lia | reflexivity].
  - right. split; [exact Hneg | reflexivity].
  - left. split; [reflexivity | exists v; reflexivity].
Qed.

(** C7.  Whatever the outcome of a call, the session it leaves has the
    calibration offsets, the client and the channel table it had before;
    and a session whose guard was free before the call is, after it,
    identical to what it was, so it can be used for the next call. *)
Theorem read_raw_preserves_session indio_dev ochan val val2 mask k :
  let r := env_combo_read_raw indio_dev ochan val val2 mask k in
  temp_calib (iio_priv (rr_dev r)) = temp_calib (iio_priv indio_dev) /\
  hum_calib (iio_priv (rr_dev r)) = hum_calib (iio_priv indio_dev) /\
  client (iio_priv (rr_dev r)) = client (iio_priv indio_dev) /\
  channels (rr_dev r) = channels indio_dev /\
  (held (lock (iio_priv indio_dev)) = false -> rr_dev r = indio_dev).
Proof.
  intros r.
  destruct (read_raw_cases indio_dev ochan val val2 mask k)
    as [E | [(ret & w & evs & Hneg & E) | (w & evs & v & E)]];
    fold r in E; rewrite E; unfold rr_dev; simpl; repeat split;
    intros Hfree; destruct indio_dev as [[c [h] tc hc] nm md chs n];
    simpl in Hfree; subst h; reflexivity.
Qed.

(** C8.  Against a device whose state is not changed by being read, a
    second call with the same arguments, made on the session and state
    the first call left, returns the same code and leaves the same value
    in the caller's memory: nothing a call changes (guard, trace, output
    cell) influences the next one. *)
Theorem read_raw_idempotent indio_dev ochan val val2 mask k :
  (forall reg,
     snd (i2c_smbus_read_byte_data (k_world k) (client (iio_priv indio_dev)) reg)
       = k_world k) ->
  let r1 := env_combo_read_raw indio_dev ochan val val2 mask k in
  let r2 := env_combo_read_raw (rr_dev r1) ochan val val2 mask (rr_state r1) in
  rr_ret r2 = rr_ret r1 /\
  k_mem (rr_state r2) !! val = k_mem (rr_state r1) !! val /\
  k_mem (rr_state r2) = k_mem (rr_state r1) /\
  k_world (rr_state r2) = k_world k.
Proof.
  intros Hst r1 r2. subst r2 r1. unfold env_combo_read_raw.
  destruct ochan as [chan|]; [| simpl; auto].
  destruct (val =? NULL) eqn:Hv; [simpl; auto |].
  destruct (negb (mask =? IIO_CHAN_INFO_RAW)) eqn:Hm; [simpl; auto |].
  unfold bus_read, rr_ret, rr_state, rr_dev. simpl.
  repeat match goal with
  | E : i2c_smbus_read_byte_data ?w ?c ?reg = _
    |- context [i2c_smbus_read_byte_data ?w ?c ?reg] => rewrite E; simpl
  | E : ?b = _ |- context [if ?b then _ else _] => rewrite E; simpl
  | |- context [i2c_smbus_read_byte_data (k_world k) ?c ?reg] =>
      let E := fresh "E" in
      let S := fresh "S" in
      pose proof (Hst reg) as S;
      destruct (i2c_smbus_read_byte_data (k_world k) c reg) as [? ?] eqn:E;
      simpl in S; subst; simpl
  | |- context [if ?b then _ else _] =>
      let E := fresh "E" in destruct b eqn:E; simpl
  end;
  repeat split; try reflexivity; rewrite insert_insert_eq; reflexivity.
Qed.

End ReadChannel.

(** ** Probe *)

Section Probe.

Context {world : Type} `{Platform world}.

Implicit Types (k : kstate world) (w : world) (c : ptr).

(** The probe, step by step, in terms of the platform's answers. *)
Lemma probe_steps c id k :
  c <> NULL -> id <> NULL ->
  let w := k_world k in
  env_combo_probe c id k =
    if (fst (ans_id w c) <? 0) || negb (fst (ans_id w c) =? WHO_AM_I_EXPECTED)
    then (- ENODEV, after_probe k (snd (ans_id w c)) (firstn 1 probe_sequence) [])
    else if negb (fst (ans_alloc w c))
    then (- ENOMEM, after_probe k (snd (ans_alloc w c)) (firstn 1 probe_sequence) [])
    else if fst (ans_msb w c) <? 0
    then (- EIO, after_probe k (snd (ans_msb w c)) (firstn 2 probe_sequence) [])
    else if fst (ans_lsb w c) <? 0
    then (- EIO, after_probe k (snd (ans_lsb w c)) (firstn 3 probe_sequence) [])
    else if fst (ans_hum w c) <? 0
    then (- EIO, after_probe k (snd (ans_hum w c)) (firstn 4 probe_sequence) [])
    else if fst (ans_cfg w c) <? 0
    then (fst (ans_cfg w c),
          after_probe k (snd (ans_cfg w c)) probe_sequence [])
    else (fst (ans_reg w c),
          after_probe k (snd (ans_reg w c)) probe_sequence
            (if fst (ans_reg w c) =? 0 then [ans_dev w c] else [])).
Proof.
  intros Hc Hi w. subst w. unfold env_combo_probe.
  apply Z.eqb_neq in Hc, Hi. rewrite Hc, Hi.
  unfold ans_reg, ans_dev, ans_cfg, ans_hum, ans_lsb, ans_msb, ans_alloc, ans_id.
  unfold bus_read, bus_write, iio_alloc, iio_register, after_probe, dev_err_probe.
  unfold probed_dev, set_hum_calib, set_temp_calib.
  simpl.
  destruct (i2c_smbus_read_byte_data (k_world k) c REG_WHO_AM_I) as [? ?]; simpl.
  repeat match goal with
  | |- context [i2c_smbus_read_byte_data ?w ?c ?reg] =>
      is_var w; destruct (i2c_smbus_read_byte_data w c reg) as [? ?]; simpl
  | |- context [devm_iio_device_alloc ?w] =>
      is_var w; destruct (devm_iio_device_alloc w) as [? ?]; simpl
  | |- context [i2c_smbus_write_byte_data ?w ?c ?reg ?v] =>
      is_var w; destruct (i2c_smbus_write_byte_data w c reg v) as [? ?]; simpl
  | |- context [devm_iio_device_register ?w ?d] =>
      is_var w; destruct (devm_iio_device_register w d) as [? ?]; simpl
  end.
  repeat match goal with
  | |- context [if ?b then _ else _] => destruct b; simpl
  end;
  repeat rewrite <- app_assoc; simpl; rewrite ?app_nil_r; reflexivity.
Qed.

Lemma sign_extend_small bits z : z < 2 ^ (bits - 1) -> sign_extend bits z = z.
Proof.
  intros Hz. unfold sign_extend. apply Z.ltb_lt in Hz. rewrite Hz. reflexivity.
Qed.

(** A probe that returns zero went through every step. *)
Lemma probe_zero_inv c id k :
  fst (env_combo_probe c id k) = 0 ->
  let w := k_world k in
  c <> NULL /\ id <> NULL /\
  fst (ans_id w c) = WHO_AM_I_EXPECTED /\
  fst (ans_alloc w c) = true /\
  0 <= fst (ans_msb w c) /\ 0 <= fst (ans_lsb w c) /\ 0 <= fst (ans_hum w c) /\
  0 <= fst (ans_cfg w c) /\ fst (ans_reg w c) = 0.
Proof.
  intros Hz w.
  assert (Hc : c <> NULL).
  { intros ->. unfold env_combo_probe in Hz. simpl in Hz. discriminate. }
  assert (Hi : id <> NULL).
  { intros ->. unfold env_combo_probe in Hz.
    apply Z.eqb_neq in Hc. rewrite Hc in Hz. simpl in Hz. discriminate. }
  rewrite (probe_steps c id k Hc Hi) in Hz. fold w in Hz.
  destruct (fst (ans_id w c) <? 0) eqn:E0; [discriminate |].
  destruct (fst (ans_id w c) =? WHO_AM_I_EXPECTED) eqn:E1; [| discriminate].
  simpl in Hz.
  destruct (fst (ans_alloc w c)) eqn:E2; [| discriminate]. simpl in Hz.
  destruct (fst (ans_msb w c) <? 0) eqn:E3; [discriminate |].
  destruct (fst (ans_lsb w c) <? 0) eqn:E4; [discriminate |].
  destruct (fst (ans_hum w c) <? 0) eqn:E5; [discriminate |].
  destruct (fst (ans_cfg w c) <? 0) eqn:E6.
  { simpl in Hz. apply Z.ltb_lt in E6. lia. }
  simpl in Hz.
  apply Z.eqb_eq in E1. apply Z.ltb_ge in E3, E4, E5, E6.
  repeat split; assumption.
Qed.

(** C2 (as amended).  After a successful probe the registered session
    holds the temperature offset [(msb << 8) | lsb] taken as it is, a
    value in 0..65535, and the humidity offset equal to the calibration
    byte, a value in 0..255: no sign extension is applied.  The offsets
    agree with the two's-complement reading of the specification exactly
    when the top bit of [msb] (resp. of the humidity byte) is clear. *)
Theorem probe_calibration_unsigned c id k :
  fst (env_combo_probe c id k) = 0 ->
  let w := k_world k in
  let msb := fst (ans_msb w c) in
  let lsb := fst (ans_lsb w c) in
  let hum := fst (ans_hum w c) in
  exists dev,
    k_iio (snd (env_combo_probe c id k)) = k_iio k ++ [dev] /\
    temp_calib (iio_priv dev) = Z.lor (Z.shiftl msb 8) lsb /\
    temp_calib (iio_priv dev) = msb * 256 + lsb /\
    0 <= temp_calib (iio_priv dev) <= 65535 /\
    hum_calib (iio_priv dev) = hum /\
    0 <= hum_calib (iio_priv dev) <= 255 /\
    (temp_calib (iio_priv dev) = spec_temp_calib msb lsb <-> msb < 128) /\
    (hum_calib (iio_priv dev) = spec_hum_calib hum <-> hum < 128).
Proof.
  intros Hz w msb lsb hum.
  destruct (probe_zero_inv c id k Hz)
    as (Hc & Hi & Hid & Hal & Hm & Hl & Hh & Hcfg & Hreg).
  fold w in Hid, Hal, Hm, Hl, Hh, Hcfg, Hreg.
  exists (ans_dev w c).
  assert (Bm : 0 <= msb <= 255) by (eapply read_ok_byte; [apply surjective_pairing | exact Hm]).
  assert (Bl : 0 <= lsb <= 255) by (eapply read_ok_byte; [apply surjective_pairing | exact Hl]).
  assert (Bh : 0 <= hum <= 255) by (eapply read_ok_byte; [apply surjective_pairing | exact Hh]).
  destruct (combine_bytes_range msb lsb Bm Bl) as [Hsum Hrng].
  unfold TEMP_SHIFT_BITS in Hsum, Hrng.
  split.
  { rewrite (probe_steps c id k Hc Hi). fold w.
    apply Z.ltb_ge in Hm, Hl, Hh, Hcfg.
    subst msb lsb hum. rewrite Hid, Hal, Hm, Hl, Hh, Hcfg, Hreg. reflexivity. }
  unfold ans_dev, probed_dev, iio_priv, TEMP_SHIFT_BITS. simpl.
  fold w msb lsb hum.
  repeat split; try assumption; try lia.
  - intros Heq. unfold spec_temp_calib, sign_extend in Heq.
    rewrite Hsum in Heq.
    destruct (msb * 256 + lsb <? 2 ^ (16 - 1)) eqn:E.
    + apply Z.ltb_lt in E. change (2 ^ (16 - 1)) with 32768 in E. lia.
    + change (2 ^ 16) with 65536 in Heq. lia.
  - intros Hlt. unfold spec_temp_calib. rewrite sign_extend_small; [reflexivity |].
    rewrite Hsum. change (2 ^ (16 - 1)) with 32768. lia.
  - intros Heq. unfold spec_hum_calib, sign_extend in Heq.
    destruct (hum <? 2 ^ (8 - 1)) eqn:E.
    + apply Z.ltb_lt in E. change (2 ^ (8 - 1)) with 128 in E. lia.
    + change (2 ^ 8) with 256 in Heq. lia.
  - intros Hlt. unfold spec_hum_calib. rewrite sign_extend_small; [reflexivity |].
    change (2 ^ (8 - 1)) with 128. lia.
Qed.

(** C5 (as amended).  If the identity read fails or returns a value other
    than 0xEB, the probe returns [-ENODEV] (DeviceNotFound); its only bus
    transaction is the identity read, so no calibration register is read
    and nothing is written, and no session is registered.  If the
    identity register returns 0xEB, the calibration reads and the
    configuration write succeed, and the framework's device allocation
    and registration succeed, the probe returns 0 and registers the
    session holding the loaded calibration. *)
Theorem probe_identity_gate c id k :
  c <> NULL -> id <> NULL ->
  let w := k_world k in
  let r := env_combo_probe c id k in
  let evs := events_since (k_trace k) (k_trace (snd r)) in
  (fst (ans_id w c) < 0 \/ fst (ans_id w c) <> 0xEB ->
     fst r = - ENODEV /\ evs = [EvRead REG_WHO_AM_I] /\
     k_iio (snd r) = k_iio k) /\
  (fst (ans_id w c) = 0xEB ->
   0 <= fst (ans_msb w c) -> 0 <= fst (ans_lsb w c) ->
   0 <= fst (ans_hum w c) -> 0 <= fst (ans_cfg w c) ->
   fst (ans_alloc w c) = true -> fst (ans_reg w c) = 0 ->
     fst r = 0 /\ evs = probe_sequence /\
     k_iio (snd r) = k_iio k ++ [ans_dev w c]).
Proof.
  intros Hc Hi w r evs. subst evs r.
  rewrite (probe_steps c id k Hc Hi). fold w. split.
  - intros Hbad.
    assert (E : (fst (ans_id w c) <? 0)
                || negb (fst (ans_id w c) =? WHO_AM_I_EXPECTED) = true).
    { destruct Hbad as [Hneg | Hne].
      - apply Z.ltb_lt in Hneg. rewrite Hneg. reflexivity.
      - apply Z.eqb_neq in Hne. unfold WHO_AM_I_EXPECTED. rewrite Hne.
        apply orb_true_r. }
    rewrite E. unfold after_probe. simpl.
    rewrite events_since_app, app_nil_r. repeat split.
  - intros Hid Hm Hl Hh Hcfg Hal Hreg.
    apply Z.ltb_ge in Hm, Hl, Hh, Hcfg.
    change 0xEB with WHO_AM_I_EXPECTED in Hid.
    rewrite Hid, Hal, Hm, Hl, Hh, Hcfg, Hreg. unfold after_probe. simpl.
    rewrite events_since_app. repeat split.
Qed.

(** One aborting case of the probe: [n] transactions were issued. *)
Ltac probe_case n :=
  unfold after_probe; simpl; rewrite events_since_app, ?app_nil_r;
  repeat split; intros;
  first [ exists n; reflexivity
        | reflexivity
        | discriminate
        | unfold WHO_AM_I_EXPECTED, ENODEV, ENOMEM, EIO in *; lia ].

(** C6 (as amended).  The probe issues its bus transactions strictly in
    the order identity read, calibration MSB read, calibration LSB read,
    humidity calibration read, write of 0x40 to the configuration
    register, and stops at the first step that fails: an identity failure
    returns [-ENODEV], a calibration read failure returns [-EIO], and a
    configuration write failure returns the negative code the write
    itself returned, whatever it is.  Whenever the probe returns a
    non-zero code no session is registered. *)
Theorem probe_steps_in_order c id k :
  c <> NULL -> id <> NULL ->
  let w := k_world k in
  let r := env_combo_probe c id k in
  let evs := events_since (k_trace k) (k_trace (snd r)) in
  probe_sequence =
    [EvRead 0x00; EvRead 0x0D; EvRead 0x0E; EvRead 0x0F; EvWrite 0x06 0x40] /\
  (exists n, evs = firstn n probe_sequence) /\
  (fst r <> 0 -> k_iio (snd r) = k_iio k) /\
  (fst r = 0 -> evs = probe_sequence) /\
  (fst (ans_id w c) < 0 \/ fst (ans_id w c) <> 0xEB ->
     fst r = - ENODEV /\ evs = firstn 1 probe_sequence) /\
  (fst (ans_id w c) = 0xEB -> fst (ans_alloc w c) = true ->
     (fst (ans_msb w c) < 0 ->
        fst r = - EIO /\ evs = firstn 2 probe_sequence) /\
     (0 <= fst (ans_msb w c) ->
        (fst (ans_lsb w c) < 0 ->
           fst r = - EIO /\ evs = firstn 3 probe_sequence) /\
        (0 <= fst (ans_lsb w c) ->
           (fst (ans_hum w c) < 0 ->
              fst r = - EIO /\ evs = firstn 4 probe_sequence) /\
           (0 <= fst (ans_hum w c) ->
              (fst (ans_cfg w c) < 0 ->
                 fst r = fst (ans_cfg w c) /\ evs = probe_sequence))))).
Proof.
  intros Hc Hi w r evs. subst evs r.
  rewrite (probe_steps c id k Hc Hi). fold w.
  change 0xEB with WHO_AM_I_EXPECTED.
  split; [reflexivity |].
  destruct (fst (ans_id w c) <? 0) eqn:E0; simpl;
    [apply Z.ltb_lt in E0; probe_case 1%nat | apply Z.ltb_ge in E0].
  destruct (fst (ans_id w c) =? WHO_AM_I_EXPECTED) eqn:E1; simpl;
    [apply Z.eqb_eq in E1 | apply Z.eqb_neq in E1; probe_case 1%nat].
  destruct (fst (ans_alloc w c)) eqn:E2; simpl; [| probe_case 1%nat].
  destruct (fst (ans_msb w c) <? 0) eqn:E3; simpl;
    [apply Z.ltb_lt in E3; probe_case 2%nat | apply Z.ltb_ge in E3].
  destruct (fst (ans_lsb w c) <? 0) eqn:E4; simpl;
    [apply Z.ltb_lt in E4; probe_case 3%nat | apply Z.ltb_ge in E4].
  destruct (fst (ans_hum w c) <? 0) eqn:E5; simpl;
    [apply Z.ltb_lt in E5; probe_case 4%nat | apply Z.ltb_ge in E5].
  destruct (fst (ans_cfg w c) <? 0) eqn:E6; simpl;
    [apply Z.ltb_lt in E6; probe_case 5%nat | apply Z.ltb_ge in E6].
  unfold after_probe; simpl. rewrite events_since_app.
  repeat split; intros; try lia; try reflexivity.
  - exists 5%nat. reflexivity.
  - match goal with Hnz : _ <> 0 |- _ => apply Z.eqb_neq in Hnz; rewrite Hnz end.
    apply app_nil_r.
Qed.

End Probe.

(** ** Runs on the simulated device *)

Ltac sim_eval := vm_compute; first [reflexivity | discriminate | congruence].

(** The examples of the specification: calibration bytes 0x01, 0x02 give
    offset 258; temperature bytes 0x00, 0x64 then read as 358. *)
Example probe_loads_258 :
  map (fun d => temp_calib (iio_priv d))
      (k_iio (snd (env_combo_probe 0x40 1 (sim_boot sim_regs_good [] 0 true 0))))
  = [258].
Proof. vm_compute. reflexivity. Qed.

Example read_temp_358 :
  k_mem (rr_state (env_combo_read_raw (sim_session 258 5) (Some temp_chan)
                     0x1000 0x1004 IIO_CHAN_INFO_RAW
                     (sim_boot sim_regs_good [] 0 true 0))) !! (0x1000 : Z)
  = Some 358.
Proof. vm_compute. reflexivity. Qed.

(** C1, on the device: HUM_OUT = 0x32 and humidity calibration 5 read as 55. *)
Lemma read_raw_calibrated_value_witness :
  k_mem (rr_state (env_combo_read_raw (sim_session 258 5) (Some hum_chan)
                     0x1000 0x1004 IIO_CHAN_INFO_RAW
                     (sim_boot sim_regs_good [] 0 true 0))) !! (0x1000 : Z)
  = Some 55.
Proof.
  pose (k := sim_boot sim_regs_good [] 0 true 0).
  destruct (proj2 (@read_raw_calibrated_value sim_device sim_platform)
              (sim_session 258 5) hum_chan 0x1000 0x1004 k
              0x06 (k_world k) 0x32 (k_world k)
              ltac:(discriminate) eq_refl eq_refl ltac:(discriminate)
              ltac:(discriminate) eq_refl ltac:(discriminate))
    as (_ & _ & Hexact & _).
  apply Hexact. vm_compute. split; discriminate.
Defined.

(** C2, on the device: calibration bytes 0x01, 0x02 and 0x05. *)
Lemma probe_calibration_unsigned_witness :
  exists dev,
    k_iio (snd (env_combo_probe 0x40 1 (sim_boot sim_regs_good [] 0 true 0)))
      = [dev] /\
    temp_calib (iio_priv dev) = 258 /\ hum_calib (iio_priv dev) = 5.
Proof.
  destruct (@probe_calibration_unsigned sim_device sim_platform 0x40 1
              (sim_boot sim_regs_good [] 0 true 0) ltac:(sim_eval))
    as (dev & Hdev & _ & Ht & _ & Hh & _).
  exists dev. split; [exact Hdev | split; [exact Ht | exact Hh]].
Defined.

(** C2 fails as stated: with calibration bytes 0xFF, 0xFF and humidity
    calibration byte 0xFF the session holds 65535 and 255, where the
    two's-complement reading gives -1 and -1. *)
Lemma probe_calibration_not_sign_extended :
  map (fun d => (temp_calib (iio_priv d), hum_calib (iio_priv d)))
      (k_iio (snd (env_combo_probe 0x40 1 (sim_boot sim_regs_ff [] 0 true 0))))
    = [(65535, 255)] /\
  spec_temp_calib 0xFF 0xFF = -1 /\
  spec_hum_calib 0xFF = -1.
Proof. repeat split; vm_compute; reflexivity. Qed.

(** C3, on the device: only humidity is ready and temperature is asked. *)
Lemma read_raw_not_ready_witness :
  let r := env_combo_read_raw (sim_session 258 5) (Some temp_chan)
             0x1000 0x1004 IIO_CHAN_INFO_RAW
             (sim_boot [(REG_STATUS, 0x04); (REG_TEMP_LSB, 0x64)] [] 0 true 0) in
  rr_ret r = - EAGAIN /\
  filter is_data_read (k_trace (rr_state r)) = [].
Proof.
  pose (k := sim_boot [(REG_STATUS, 0x04); (REG_TEMP_LSB, 0x64)] [] 0 true 0).
  destruct (@read_raw_not_ready_no_data_read sim_device sim_platform
              (sim_session 258 5) temp_chan 0x1000 0x1004 k 0x04 (k_world k)
              ltac:(discriminate) eq_refl ltac:(discriminate)
              (or_introl (conj eq_refl eq_refl)))
    as (Hret & _ & Hnone & _).
  split; [exact Hret | exact Hnone].
Defined.

(** C4 fails as stated: for a voltage channel the status register is read
    (one bus transaction, not zero), and when that read fails the call
    returns [-EIO], not [-EINVAL]. *)
Lemma read_raw_invalid_channel_reads_status :
  let r := env_combo_read_raw (sim_session 258 5) (Some volt_chan)
             0x1000 0x1004 IIO_CHAN_INFO_RAW
             (sim_boot sim_regs_good [] 0 true 0) in
  let r' := env_combo_read_raw (sim_session 258 5) (Some volt_chan)
              0x1000 0x1004 IIO_CHAN_INFO_RAW
              (sim_boot sim_regs_good [REG_STATUS] 0 true 0) in
  (type volt_chan <> IIO_TEMP /\ type volt_chan <> IIO_HUMIDITYRELATIVE) /\
  (rr_ret r = - EINVAL /\
   filter is_bus_event (k_trace (rr_state r)) = [EvRead REG_STATUS] /\
   filter is_bus_event (k_trace (rr_state r)) <> []) /\
  (rr_ret r' = - EIO /\ rr_ret r' <> - EINVAL /\
   filter is_bus_event (k_trace (rr_state r')) = [EvRead REG_STATUS]).
Proof. repeat split; vm_compute; first [reflexivity | discriminate]. Qed.

(** C4 as amended, on the device. *)
Lemma read_raw_invalid_channel_witness :
  let r := env_combo_read_raw (sim_session 258 5) (Some volt_chan)
             0x1000 0x1004 IIO_CHAN_INFO_RAW
             (sim_boot sim_regs_good [] 0 true 0) in
  rr_ret r = - EINVAL /\
  k_trace (rr_state r) = [EvLock; EvRead REG_STATUS; EvUnlock].
Proof.
  destruct (@read_raw_invalid_channel sim_device sim_platform
              (sim_session 258 5) volt_chan 0x1000 0x1004
              (sim_boot sim_regs_good [] 0 true 0)
              ltac:(discriminate) ltac:(discriminate) ltac:(discriminate))
    as (Hret & Hevs & _).
  split; [exact Hret | exact Hevs].
Defined.

(** C5, on the device: a healthy device is probed successfully. *)
Lemma probe_identity_gate_witness :
  let r := env_combo_probe 0x40 1 (sim_boot sim_regs_good [] 0 true 0) in
  fst r = 0 /\ k_trace (snd r) = probe_sequence /\
  k_iio (snd r) = [probed_dev 0x40 0x01 0x02 0x05].
Proof.
  destruct (@probe_identity_gate sim_device sim_platform 0x40 1
              (sim_boot sim_regs_good [] 0 true 0)
              ltac:(discriminate) ltac:(discriminate)) as [_ Hok].
  apply Hok; sim_eval.
Defined.

(** C5 fails as stated: the identity register returns 0xEB, the three
    calibration reads and the configuration write succeed, and the probe
    still fails, without a session, because registration with the IIO
    core returned [-ENOMEM]. *)
Lemma probe_fails_after_config_write :
  let k := sim_boot sim_regs_good [] 0 true (- ENOMEM) in
  let r := env_combo_probe 0x40 1 k in
  (fst (ans_id (k_world k) 0x40) = 0xEB /\
   0 <= fst (ans_msb (k_world k) 0x40) /\
   0 <= fst (ans_lsb (k_world k) 0x40) /\
   0 <= fst (ans_hum (k_world k) 0x40) /\
   0 <= fst (ans_cfg (k_world k) 0x40)) /\
  k_trace (snd r) = probe_sequence /\
  fst r = - ENOMEM /\
  k_iio (snd r) = [].
Proof. repeat split; vm_compute; first [reflexivity | discriminate]. Qed.

(** C6, on the device: the calibration LSB read fails. *)
Lemma probe_steps_in_order_witness :
  let r := env_combo_probe 0x40 1
             (sim_boot sim_regs_good [REG_CALIB_TEMP_LSB] 0 true 0) in
  fst r = - EIO /\
  k_trace (snd r) =
    [EvRead REG_WHO_AM_I; EvRead REG_CALIB_TEMP_MSB; EvRead REG_CALIB_TEMP_LSB].
Proof.
  destruct (@probe_steps_in_order sim_device sim_platform 0x40 1
              (sim_boot sim_regs_good [REG_CALIB_TEMP_LSB] 0 true 0)
              ltac:(discriminate) ltac:(discriminate))
    as (_ & _ & _ & _ & _ & Hsteps).
  destruct (Hsteps ltac:(sim_eval) ltac:(sim_eval)) as [_ Hmsb].
  destruct (Hmsb ltac:(sim_eval)) as [Hlsb _].
  apply Hlsb. sim_eval.
Defined.

(** C6 fails as stated: when the transport fails the configuration write
    with [-EIO], the probe returns that same [-EIO], the very code a
    failed calibration read produces; the two failures are not told apart
    by the result. *)
Lemma probe_config_failure_not_distinct :
  let r_cfg := env_combo_probe 0x40 1 (sim_boot sim_regs_good [] (- EIO) true 0) in
  let r_cal := env_combo_probe 0x40 1
                 (sim_boot sim_regs_good [REG_CALIB_TEMP_LSB] 0 true 0) in
  k_trace (snd r_cfg) = probe_sequence /\
  fst r_cfg = - EIO /\
  k_trace (snd r_cal) = firstn 3 probe_sequence /\
  fst r_cal = - EIO /\
  fst r_cfg = fst r_cal.
Proof. repeat split; vm_compute; reflexivity. Qed.

(** C8, on the device: two temperature reads in a row. *)
Lemma read_raw_idempotent_witness :
  let r1 := env_combo_read_raw (sim_session 258 5) (Some temp_chan)
              0x1000 0x1004 IIO_CHAN_INFO_RAW
              (sim_boot sim_regs_good [] 0 true 0) in
  let r2 := env_combo_read_raw (rr_dev r1) (Some temp_chan)
              0x1000 0x1004 IIO_CHAN_INFO_RAW (rr_state r1) in
  rr_ret r1 = IIO_VAL_INT /\
  rr_ret r2 = rr_ret r1 /\
  k_mem (rr_state r2) !! (0x1000 : Z) = k_mem (rr_state r1) !! (0x1000 : Z).
Proof.
  assert (Hstatic : forall reg,
    snd (i2c_smbus_read_byte_data
           (k_world (sim_boot sim_regs_good [] 0 true 0))
           (client (iio_priv (sim_session 258 5))) reg)
    = k_world (sim_boot sim_regs_good [] 0 true 0)).
  { intros reg. simpl. unfold sim_read. simpl. reflexivity. }
  destruct (@read_raw_idempotent sim_device sim_platform
              (sim_session 258 5) (Some temp_chan) 0x1000 0x1004
              IIO_CHAN_INFO_RAW (sim_boot sim_regs_good [] 0 true 0) Hstatic)
    as (Hret & Hval & _).
  split; [reflexivity | split; [exact Hret | exact Hval]].
Defined.

(** C9, on the device: a request for the processed value. *)
Lemma read_raw_rejects_mask_witness :
  let r := env_combo_read_raw (sim_session 258 5) (Some temp_chan)
             0x1000 0x1004 1 (sim_boot sim_regs_good [] 0 true 0) in
  rr_ret r = - EINVAL /\ k_trace (rr_state r) = [].
Proof.
  destruct (@read_raw_rejects_mask_before_guard sim_device sim_platform
              (sim_session 258 5) (Some temp_chan) 0x1000 0x1004 1
              (sim_boot sim_regs_good [] 0 true 0) ltac:(discriminate))
    as (Hret & Htr & _).
  split; [exact Hret | exact Htr].
Defined.

(** * Further properties of the read path *)

Ltac read_raw_paths :=
  unfold env_combo_read_raw, bus_read; simpl;
  repeat match goal with
  | |- context [i2c_smbus_read_byte_data ?w ?c ?reg] =>
      let E := fresh "E" in
      destruct (i2c_smbus_read_byte_data w c reg) as [? ?] eqn:E; simpl
  | |- context [if ?b then _ else _] =>
      let E := fresh "E" in destruct b eqn:E; simpl
  end.

Ltac trace_flat :=
  unfold read_raw_out, released, emit, store_int, rr_ret, rr_dev, rr_state;
  simpl; repeat rewrite <- app_assoc; simpl; rewrite ?events_since_app.

Lemma events_since_same (t : list event) : events_since t t = [].
Proof.
  rewrite <- (app_nil_r t) at 2. apply events_since_app.
Qed.

Section ReadChannelMore.

Context {world : Type} `{Platform world}.

Implicit Types (k : kstate world) (indio_dev : iio_dev) (chan : iio_chan_spec).

(** Once the argument checks are passed, the call takes the guard, reads
    the status register, issues one of four sequences of data reads and
    releases the guard. *)
Lemma read_raw_armed_shape indio_dev chan val val2 k :
  val <> NULL ->
  let r := env_combo_read_raw indio_dev (Some chan) val val2 IIO_CHAN_INFO_RAW k in
  rr_dev r = released indio_dev /\
  exists mid,
    events_since (k_trace k) (k_trace (rr_state r))
      = EvLock :: EvRead REG_STATUS :: mid ++ [EvUnlock] /\
    (mid = [] \/ mid = [EvRead REG_TEMP_MSB] \/
     mid = [EvRead REG_TEMP_MSB; EvRead REG_TEMP_LSB] \/
     mid = [EvRead REG_HUM_OUT]).
Proof.
  intros Hv r. subst r. apply Z.eqb_neq in Hv.
  unfold env_combo_read_raw. rewrite Hv. simpl.
  unfold bus_read; simpl.
  repeat match goal with
  | |- context [i2c_smbus_read_byte_data ?w ?c ?reg] =>
      destruct (i2c_smbus_read_byte_data w c reg) as [? ?]; simpl
  | |- context [if ?b then _ else _] => destruct b; simpl
  end;
  trace_flat; (split; [reflexivity |]);
  first
    [ exists (@nil event); split; [reflexivity | tauto]
    | exists [EvRead REG_TEMP_MSB]; split; [reflexivity | tauto]
    | exists [EvRead REG_TEMP_MSB; EvRead REG_TEMP_LSB];
      split; [reflexivity | tauto]
    | exists [EvRead REG_HUM_OUT]; split; [reflexivity | tauto] ].
Qed.

(** Which calls return before the guard. *)
Lemma read_raw_early indio_dev ochan val val2 mask k :
  ochan = None \/ val = NULL \/ mask <> IIO_CHAN_INFO_RAW ->
  env_combo_read_raw indio_dev ochan val val2 mask k = (- EINVAL, indio_dev, k).
Proof.
  intros [-> | [-> | Hm]].
  - reflexivity.
  - unfold env_combo_read_raw. destruct ochan; reflexivity.
  - apply read_raw_bad_mask. exact Hm.
Qed.

Lemma read_raw_args_dec (ochan : option iio_chan_spec) (val mask : Z) :
  (ochan = None \/ val = NULL \/ mask <> IIO_CHAN_INFO_RAW) \/
  (exists chan, ochan = Some chan /\ val <> NULL /\ mask = IIO_CHAN_INFO_RAW).
Proof.
  destruct ochan as [chan|]; [| left; left; reflexivity].
  destruct (Z.eq_dec val NULL) as [-> | Hv]; [left; right; left; reflexivity |].
  destruct (Z.eq_dec mask IIO_CHAN_INFO_RAW) as [-> | Hm].
  - right. exists chan. repeat split. exact Hv.
  - left. right. right. exact Hm.
Qed.

(** X1.  A call is rejected without effect exactly when the channel
    pointer is NULL, the output pointer is NULL, or the mask is not the
    raw-value request: then it returns [-EINVAL] and session and state
    are untouched; in every other case the guard is taken, so the trace
    grows. *)
Theorem read_raw_rejected_iff indio_dev ochan val val2 mask k :
  let r := env_combo_read_raw indio_dev ochan val val2 mask k in
  let rejected := ochan = None \/ val = NULL \/ mask <> IIO_CHAN_INFO_RAW in
  (rejected -> r = (- EINVAL, indio_dev, k)) /\
  (rejected <-> events_since (k_trace k) (k_trace (rr_state r)) = []).
Proof.
  intros r rejected. subst r rejected. split; [apply read_raw_early |].
  split.
  - intros Hr. rewrite (read_raw_early _ _ _ _ _ _ Hr).
    unfold rr_state. simpl. apply events_since_same.
  - intros Hnil.
    destruct (read_raw_args_dec ochan val mask)
      as [Hr | (chan & -> & Hv & ->)]; [exact Hr |].
    destruct (read_raw_armed_shape indio_dev chan val val2 k Hv)
      as (_ & mid & Hevs & _).
    rewrite Hevs in Hnil. discriminate.
Qed.

(** X2.  The guard is balanced on every path: a call that is not rejected
    appends exactly one lock, first, and one unlock, last, with only bus
    transactions in between, and leaves the session's mutex free. *)
Theorem read_raw_guard_balanced indio_dev ochan val val2 mask k :
  let r := env_combo_read_raw indio_dev ochan val val2 mask k in
  let evs := events_since (k_trace k) (k_trace (rr_state r)) in
  (evs = [] /\ rr_dev r = indio_dev) \/
  (exists mid,
     evs = EvLock :: mid ++ [EvUnlock] /\
     forallb is_bus_event mid = true /\
     held (lock (iio_priv (rr_dev r))) = false).
Proof.
  intros r evs. subst evs r.
  destruct (read_raw_args_dec ochan val mask)
    as [Hr | (chan & -> & Hv & ->)].
  - left. rewrite (read_raw_early _ _ _ _ _ _ Hr).
    unfold rr_state, rr_dev. simpl. split; [apply events_since_same | reflexivity].
  - right.
    destruct (read_raw_armed_shape indio_dev chan val val2 k Hv)
      as (Hdev & mid & Hevs & Hmid).
    exists (EvRead REG_STATUS :: mid). rewrite Hevs, Hdev.
    split; [reflexivity |]. split; [| reflexivity].
    destruct Hmid as [-> | [-> | [-> | ->]]]; reflexivity.
Qed.

(** X3.  The bus transactions of a call are one of five sequences: none;
    the status read alone; status then TEMP_MSB; status, TEMP_MSB then
    TEMP_LSB; status then HUM_OUT.  So a call never writes a register,
    issues at most three transactions, reads the status first, never
    reads TEMP_LSB without TEMP_MSB before it, and never mixes the
    registers of the two channels. *)
Theorem read_raw_bus_sequences indio_dev ochan val val2 mask k :
  let r := env_combo_read_raw indio_dev ochan val val2 mask k in
  let bus := filter is_bus_event
               (events_since (k_trace k) (k_trace (rr_state r))) in
  bus = [] \/
  bus = [EvRead REG_STATUS] \/
  bus = [EvRead REG_STATUS; EvRead REG_TEMP_MSB] \/
  bus = [EvRead REG_STATUS; EvRead REG_TEMP_MSB; EvRead REG_TEMP_LSB] \/
  bus = [EvRead REG_STATUS; EvRead REG_HUM_OUT].
Proof.
  intros r bus. subst bus r.
  destruct (read_raw_args_dec ochan val mask)
    as [Hr | (chan & -> & Hv & ->)].
  - left. rewrite (read_raw_early _ _ _ _ _ _ Hr).
    unfold rr_state. simpl. rewrite events_since_same. reflexivity.
  - right.
    destruct (read_raw_armed_shape indio_dev chan val val2 k Hv)
      as (_ & mid & Hevs & Hmid).
    rewrite Hevs.
    destruct Hmid as [-> | [-> | [-> | ->]]]; simpl; tauto.
Qed.

(** X4.  A failed status read ends the call with [-EIO] whatever the
    channel, served or not: the status read is the only transaction, no
    value is stored and the guard is released. *)
Theorem read_raw_status_failure indio_dev chan val val2 k status w1 :
  val <> NULL ->
  i2c_smbus_read_byte_data (k_world k) (client (iio_priv indio_dev)) REG_STATUS
    = (status, w1) ->
  status < 0 ->
  let r := env_combo_read_raw indio_dev (Some chan) val val2 IIO_CHAN_INFO_RAW k in
  rr_ret r = - EIO /\
  events_since (k_trace k) (k_trace (rr_state r))
    = [EvLock; EvRead REG_STATUS; EvUnlock] /\
  k_mem (rr_state r) = k_mem k /\
  k_world (rr_state r) = w1 /\
  held (lock (iio_priv (rr_dev r))) = false.
Proof.
  intros Hv E Hs r. subst r.
  rewrite (read_raw_status_fail _ _ _ _ _ _ _ Hv E Hs).
  unfold rr_ret, rr_state, rr_dev, after_call. simpl.
  rewrite events_since_app. repeat split.
Qed.

(** X5.  A failed temperature data read ends the call with [-EIO] and
    stores nothing: when the TEMP_MSB read fails the TEMP_LSB register is
    not read at all; when TEMP_MSB succeeds and TEMP_LSB fails both were
    read, in that order. *)
Theorem read_raw_temp_data_failure indio_dev chan val val2 k status w1 msb w2 :
  val <> NULL ->
  type chan = IIO_TEMP ->
  i2c_smbus_read_byte_data (k_world k) (client (iio_priv indio_dev)) REG_STATUS
    = (status, w1) ->
  0 <= status ->
  Z.land status STATUS_TEMP_RDY_MASK <> 0 ->
  i2c_smbus_read_byte_data w1 (client (iio_priv indio_dev)) REG_TEMP_MSB
    = (msb, w2) ->
  let r := env_combo_read_raw indio_dev (Some chan) val val2 IIO_CHAN_INFO_RAW k in
  let evs := events_since (k_trace k) (k_trace (rr_state r)) in
  let lsb := fst (i2c_smbus_read_byte_data w2 (client (iio_priv indio_dev))
                    REG_TEMP_LSB) in
  (msb < 0 ->
     rr_ret r = - EIO /\
     evs = [EvLock; EvRead REG_STATUS; EvRead REG_TEMP_MSB; EvUnlock] /\
     k_mem (rr_state r) = k_mem k) /\
  (0 <= msb -> lsb < 0 ->
     rr_ret r = - EIO /\
     evs = [EvLock; EvRead REG_STATUS; EvRead REG_TEMP_MSB; EvRead REG_TEMP_LSB;
            EvUnlock] /\
     k_mem (rr_state r) = k_mem k).
Proof.
  intros Hv Ht E Hs Hb E1 r evs lsb. subst evs r lsb.
  apply Z.eqb_neq in Hv, Hb. apply Z.ltb_ge in Hs.
  unfold env_combo_read_raw, bus_read. rewrite Hv. simpl.
  rewrite E. simpl. rewrite Hs, Ht. simpl. rewrite Hb, E1. simpl.
  destruct (i2c_smbus_read_byte_data w2 (client (iio_priv indio_dev))
              REG_TEMP_LSB) as [lsb w3].
  simpl. split.
  - intros Hm. apply Z.ltb_lt in Hm. rewrite Hm. trace_flat. repeat split.
  - intros Hm Hl. apply Z.ltb_ge in Hm. apply Z.ltb_lt in Hl.
    rewrite Hm, Hl. trace_flat. repeat split.
Qed.

(** X6.  A failed HUM_OUT read ends a humidity call with [-EIO]; nothing
    is stored. *)
Theorem read_raw_hum_data_failure indio_dev chan val val2 k status w1 hum w2 :
  val <> NULL ->
  type chan = IIO_HUMIDITYRELATIVE ->
  i2c_smbus_read_byte_data (k_world k) (client (iio_priv indio_dev)) REG_STATUS
    = (status, w1) ->
  0 <= status ->
  Z.land status STATUS_HUM_RDY_MASK <> 0 ->
  i2c_smbus_read_byte_data w1 (client (iio_priv indio_dev)) REG_HUM_OUT
    = (hum, w2) ->
  hum < 0 ->
  let r := env_combo_read_raw indio_dev (Some chan) val val2 IIO_CHAN_INFO_RAW k in
  rr_ret r = - EIO /\
  events_since (k_trace k) (k_trace (rr_state r))
    = [EvLock; EvRead REG_STATUS; EvRead REG_HUM_OUT; EvUnlock] /\
  k_mem (rr_state r) = k_mem k.
Proof.
  intros Hv Ht E Hs Hb E1 Hh r. subst r.
  apply Z.eqb_neq in Hv, Hb. apply Z.ltb_ge in Hs. apply Z.ltb_lt in Hh.
  unfold env_combo_read_raw, bus_read. rewrite Hv. simpl.
  rewrite E. simpl. rewrite Hs, Ht. simpl. rewrite Hb, E1. simpl.
  rewrite Hh. trace_flat. repeat split.
Qed.

(** X7.  For a served channel whose status read succeeded, the call
    answers [-EAGAIN] exactly when the channel's readiness bit is clear:
    with the bit set the result is [IIO_VAL_INT] or [-EIO], never
    [-EAGAIN], and the other bits of the status byte play no part. *)
Theorem read_raw_not_ready_iff indio_dev chan val val2 k status w1 :
  val <> NULL ->
  i2c_smbus_read_byte_data (k_world k) (client (iio_priv indio_dev)) REG_STATUS
    = (status, w1) ->
  0 <= status ->
  let r := env_combo_read_raw indio_dev (Some chan) val val2 IIO_CHAN_INFO_RAW k in
  (type chan = IIO_TEMP ->
     (rr_ret r = - EAGAIN <-> Z.land status STATUS_TEMP_RDY_MASK = 0) /\
     (Z.land status STATUS_TEMP_RDY_MASK <> 0 ->
        rr_ret r = IIO_VAL_INT \/ rr_ret r = - EIO)) /\
  (type chan = IIO_HUMIDITYRELATIVE ->
     (rr_ret r = - EAGAIN <-> Z.land status STATUS_HUM_RDY_MASK = 0) /\
     (Z.land status STATUS_HUM_RDY_MASK <> 0 ->
        rr_ret r = IIO_VAL_INT \/ rr_ret r = - EIO)).
Proof.
  intros Hv E Hs r. subst r.
  apply Z.eqb_neq in Hv. apply Z.ltb_ge in Hs.
  unfold env_combo_read_raw, bus_read. rewrite Hv. simpl.
  rewrite E. simpl. rewrite Hs.
  split; intros Ht; rewrite Ht; simpl.
  - destruct (Z.land status STATUS_TEMP_RDY_MASK =? 0) eqn:Eb.
    + apply Z.eqb_eq in Eb. trace_flat.
      split; [split; [intros _; exact Eb | reflexivity] | intros Hn; contradiction].
    + apply Z.eqb_neq in Eb.
      repeat match goal with
      | |- context [i2c_smbus_read_byte_data ?w ?c ?reg] =>
          destruct (i2c_smbus_read_byte_data w c reg) as [? ?]; simpl
      | |- context [if ?b then _ else _] => destruct b; simpl
      end; trace_flat;
      (split; [split; [unfold EIO, EAGAIN, IIO_VAL_INT; intros; lia
                      | intros; contradiction]
              | intros _; auto]).
  - destruct (Z.land status STATUS_HUM_RDY_MASK =? 0) eqn:Eb.
    + apply Z.eqb_eq in Eb. trace_flat.
      split; [split; [intros _; exact Eb | reflexivity] | intros Hn; contradiction].
    + apply Z.eqb_neq in Eb.
      repeat match goal with
      | |- context [i2c_smbus_read_byte_data ?w ?c ?reg] =>
          destruct (i2c_smbus_read_byte_data w c reg) as [? ?]; simpl
      | |- context [if ?b then _ else _] => destruct b; simpl
      end; trace_flat;
      (split; [split; [unfold EIO, EAGAIN, IIO_VAL_INT; intros; lia
                      | intros; contradiction]
              | intros _; auto]).
Qed.

(** X8.  The call returns one of four codes, [IIO_VAL_INT], [-EINVAL],
    [-EIO] or [-EAGAIN]; when it returns [IIO_VAL_INT] the value it left
    at [val] is a representable [int]. *)
Theorem read_raw_return_codes indio_dev ochan val val2 mask k :
  let r := env_combo_read_raw indio_dev ochan val val2 mask k in
  (rr_ret r = IIO_VAL_INT \/ rr_ret r = - EINVAL \/
   rr_ret r = - EIO \/ rr_ret r = - EAGAIN) /\
  (rr_ret r = IIO_VAL_INT ->
   exists v, k_mem (rr_state r) !! val = Some v /\ INT_MIN <= v <= INT_MAX).
Proof.
  intros r. subst r.
  assert (Hw : forall z, INT_MIN <= wrap_int z <= INT_MAX).
  { intros z. unfold wrap_int, INT_MIN, INT_MAX.
    pose proof (Z.mod_pos_bound (z + 2 ^ 31) (2 ^ 32)). lia. }
  unfold env_combo_read_raw.
  destruct ochan as [chan|]; [| simpl; split; [tauto | discriminate]].
  destruct (val =? NULL); [simpl; split; [tauto | discriminate] |].
  destruct (negb (mask =? IIO_CHAN_INFO_RAW));
    [simpl; split; [tauto | discriminate] |].
  unfold bus_read. simpl.
  repeat match goal with
  | |- context [i2c_smbus_read_byte_data ?w ?c ?reg] =>
      destruct (i2c_smbus_read_byte_data w c reg) as [? ?]; simpl
  | |- context [if ?b then _ else _] => destruct b; simpl
  end; trace_flat;
  (split; [tauto |]);
  first [ discriminate
        | intros _; eexists; rewrite lookup_insert_eq;
          split; [reflexivity | apply Hw] ].
Qed.

(** X9.  With calibration offsets in the ranges the probe loads (0..65535
    and 0..255), a successful call stores the exact sum, without
    wrap-around and with the LSB mask changing nothing: temperature is
    [256 * msb + lsb + offset], between 0 and 131070; humidity is
    [hum + offset], between 0 and 510.  A reading is never negative. *)
Theorem read_raw_reading_range :
  (forall indio_dev chan val val2 k status w1 msb w2 lsb w3,
     val <> NULL ->
     type chan = IIO_TEMP ->
     i2c_smbus_read_byte_data (k_world k) (client (iio_priv indio_dev)) REG_STATUS
       = (status, w1) ->
     0 <= status ->
     Z.land status STATUS_TEMP_RDY_MASK <> 0 ->
     i2c_smbus_read_byte_data w1 (client (iio_priv indio_dev)) REG_TEMP_MSB
       = (msb, w2) ->
     0 <= msb ->
     i2c_smbus_read_byte_data w2 (client (iio_priv indio_dev)) REG_TEMP_LSB
       = (lsb, w3) ->
     0 <= lsb ->
     0 <= temp_calib (iio_priv indio_dev) <= 65535 ->
     let r := env_combo_read_raw indio_dev (Some chan) val val2 IIO_CHAN_INFO_RAW k in
     let v := 256 * msb + lsb + temp_calib (iio_priv indio_dev) in
     k_mem (rr_state r) !! val = Some v /\ 0 <= v <= 131070) /\
  (forall indio_dev chan val val2 k status w1 hum w2,
     val <> NULL ->
     type chan = IIO_HUMIDITYRELATIVE ->
     i2c_smbus_read_byte_data (k_world k) (client (iio_priv indio_dev)) REG_STATUS
       = (status, w1) ->
     0 <= status ->
     Z.land status STATUS_HUM_RDY_MASK <> 0 ->
     i2c_smbus_read_byte_data w1 (client (iio_priv indio_dev)) REG_HUM_OUT
       = (hum, w2) ->
     0 <= hum ->
     0 <= hum_calib (iio_priv indio_dev) <= 255 ->
     let r := env_combo_read_raw indio_dev (Some chan) val val2 IIO_CHAN_INFO_RAW k in
     let v := hum + hum_calib (iio_priv indio_dev) in
     k_mem (rr_state r) !! val = Some v /\ 0 <= v <= 510).
Proof.
  split.
  - intros indio_dev chan val val2 k status w1 msb w2 lsb w3
      Hv Ht E Hs Hb E1 Hm E2 Hl Hcal r v. subst r v.
    rewrite (read_raw_temp_ok _ _ _ _ _ _ _ _ _ _ _ Hv Ht E Hs Hb E1 Hm E2 Hl).
    unfold rr_state, after_call. simpl. rewrite lookup_insert_eq.
    pose proof (read_ok_byte _ _ _ _ _ E1 Hm) as Bm.
    pose proof (read_ok_byte _ _ _ _ _ E2 Hl) as Bl.
    change 0xFF with BYTE_MASK. rewrite (byte_land_mask lsb Bl).
    destruct (combine_bytes_range msb lsb Bm Bl) as [Hsum Hrng].
    unfold TEMP_SHIFT_BITS in Hsum, Hrng.
    rewrite int_add_exact by (unfold INT_MIN, INT_MAX; lia).
    rewrite Hsum. split; [f_equal; lia | lia].
  - intros indio_dev chan val val2 k status w1 hum w2
      Hv Ht E Hs Hb E1 Hh Hcal r v. subst r v.
    rewrite (read_raw_hum_ok _ _ _ _ _ _ _ _ _ Hv Ht E Hs Hb E1 Hh).
    unfold rr_state, after_call. simpl. rewrite lookup_insert_eq.
    pose proof (read_ok_byte _ _ _ _ _ E1 Hh) as Bh.
    rewrite int_add_exact by (unfold INT_MIN, INT_MAX; lia).
    split; [reflexivity | lia].
Qed.

(** X10.  Every channel of the table the probe registers advertises the
    raw attribute only and has a type the read path serves: a raw read of
    it, with a valid output pointer, returns [IIO_VAL_INT], [-EIO] or
    [-EAGAIN] and never reaches the [-EINVAL] default case. *)
Theorem registered_channels_are_served c msb lsb hum chan val val2 k :
  In chan (channels (probed_dev c msb lsb hum)) ->
  val <> NULL ->
  let r := env_combo_read_raw (probed_dev c msb lsb hum) (Some chan) val val2
             IIO_CHAN_INFO_RAW k in
  info_mask_separate chan = BIT IIO_CHAN_INFO_RAW /\
  (type chan = IIO_TEMP \/ type chan = IIO_HUMIDITYRELATIVE) /\
  (rr_ret r = IIO_VAL_INT \/ rr_ret r = - EIO \/ rr_ret r = - EAGAIN) /\
  rr_ret r <> - EINVAL.
Proof.
  intros Hin Hv r. subst r. apply Z.eqb_neq in Hv.
  assert (Hcases : chan = nth 0 env_combo_channels chan \/
                   chan = nth 1 env_combo_channels chan).
  { simpl in Hin. destruct Hin as [<- | [<- | []]]; [left | right]; reflexivity. }
  destruct Hcases as [-> | ->]; simpl nth;
    (split; [reflexivity |]);
    (split; [simpl; tauto |]);
    unfold env_combo_read_raw, bus_read; rewrite Hv; simpl;
    repeat match goal with
    | |- context [i2c_smbus_read_byte_data ?w ?c ?reg] =>
        destruct (i2c_smbus_read_byte_data w c reg) as [? ?]; simpl
    | |- context [if ?b then _ else _] => destruct b; simpl
    end; trace_flat;
    (split; [tauto | unfold IIO_VAL_INT, EIO, EAGAIN, EINVAL; lia]).
Qed.

End ReadChannelMore.

(** * Further properties of the probe *)

Section ProbeMore.

Context {world : Type} `{Platform world}.

Implicit Types (k : kstate world) (w : world) (c : ptr).

(** A probe given a NULL client or a NULL device id returns
    [-EINVAL] at once: no bus transaction, no allocation, no session, the
    state exactly as it was. *)
Theorem probe_null_arguments c id k :
  c = NULL \/ id = NULL ->
  env_combo_probe c id k = (- EINVAL, k).
Proof.
  intros [-> | ->]; unfold env_combo_probe.
  - reflexivity.
  - destruct (c =? NULL); reflexivity.
Qed.

(** X11.  When the identity is right but the device allocation fails the
    probe returns [-ENOMEM]; the identity read is its only bus
    transaction (no calibration read, no configuration write) and no
    session is registered. *)
Theorem probe_allocation_failure c id k :
  c <> NULL -> id <> NULL ->
  let w := k_world k in
  let r := env_combo_probe c id k in
  fst (ans_id w c) = WHO_AM_I_EXPECTED ->
  fst (ans_alloc w c) = false ->
  fst r = - ENOMEM /\
  events_since (k_trace k) (k_trace (snd r)) = [EvRead REG_WHO_AM_I] /\
  k_iio (snd r) = k_iio k /\
  k_world (snd r) = snd (ans_alloc w c).
Proof.
  intros Hc Hi w r Hid Hal. subst r.
  rewrite (probe_steps c id k Hc Hi). fold w.
  rewrite Hid, Hal. unfold after_probe. simpl.
  rewrite events_since_app, app_nil_r. repeat split.
Qed.

(** X12.  When every bus step succeeded, the probe returns whatever
    [devm_iio_device_register] returned; if that is not zero the device
    has been configured (all five transactions were issued) but no
    session is registered. *)
Theorem probe_registration_failure c id k :
  c <> NULL -> id <> NULL ->
  let w := k_world k in
  let r := env_combo_probe c id k in
  fst (ans_id w c) = WHO_AM_I_EXPECTED ->
  fst (ans_alloc w c) = true ->
  0 <= fst (ans_msb w c) -> 0 <= fst (ans_lsb w c) ->
  0 <= fst (ans_hum w c) -> 0 <= fst (ans_cfg w c) ->
  fst r = fst (ans_reg w c) /\
  events_since (k_trace k) (k_trace (snd r)) = probe_sequence /\
  (fst (ans_reg w c) <> 0 -> k_iio (snd r) = k_iio k).
Proof.
  intros Hc Hi w r Hid Hal Hm Hl Hh Hcfg. subst r.
  rewrite (probe_steps c id k Hc Hi). fold w.
  apply Z.ltb_ge in Hm, Hl, Hh, Hcfg.
  rewrite Hid, Hal, Hm, Hl, Hh, Hcfg. unfold after_probe. simpl.
  rewrite events_since_app. repeat split.
  intros Hnz. apply Z.eqb_neq in Hnz. rewrite Hnz. apply app_nil_r.
Qed.

(** X13.  The probe returns zero exactly when both pointers are valid,
    the identity is 0xEB, the allocation succeeds, the three calibration
    reads and the configuration write succeed and the registration
    returns zero; and it registers a session, exactly one, exactly when
    it returns zero. *)
Theorem probe_success_iff c id k :
  let w := k_world k in
  let r := env_combo_probe c id k in
  (fst r = 0 <->
     c <> NULL /\ id <> NULL /\
     fst (ans_id w c) = WHO_AM_I_EXPECTED /\
     fst (ans_alloc w c) = true /\
     0 <= fst (ans_msb w c) /\ 0 <= fst (ans_lsb w c) /\
     0 <= fst (ans_hum w c) /\ 0 <= fst (ans_cfg w c) /\
     fst (ans_reg w c) = 0) /\
  k_iio (snd r) = k_iio k ++ (if fst r =? 0 then [ans_dev w c] else []).
Proof.
  intros w r. subst r. split.
  - split.
    + intros Hz. exact (probe_zero_inv c id k Hz).
    + intros (Hc & Hi & Hid & Hal & Hm & Hl & Hh & Hcfg & Hreg).
      rewrite (probe_steps c id k Hc Hi). fold w.
      apply Z.ltb_ge in Hm, Hl, Hh, Hcfg.
      rewrite Hid, Hal, Hm, Hl, Hh, Hcfg. simpl. exact Hreg.
  - destruct (Z.eq_dec c NULL) as [Hc | Hc].
    { rewrite (probe_null_arguments c id k (or_introl Hc)). simpl.
      symmetry. apply app_nil_r. }
    destruct (Z.eq_dec id NULL) as [Hi | Hi].
    { rewrite (probe_null_arguments c id k (or_intror Hi)). simpl.
      symmetry. apply app_nil_r. }
    rewrite (probe_steps c id k Hc Hi). fold w.
    destruct ((fst (ans_id w c) <? 0)
              || negb (fst (ans_id w c) =? WHO_AM_I_EXPECTED));
      [reflexivity |].
    destruct (negb (fst (ans_alloc w c))); [reflexivity |].
    destruct (fst (ans_msb w c) <? 0); [reflexivity |].
    destruct (fst (ans_lsb w c) <? 0); [reflexivity |].
    destruct (fst (ans_hum w c) <? 0); [reflexivity |].
    destruct (fst (ans_cfg w c) <? 0) eqn:E; [| reflexivity].
    apply Z.ltb_lt in E. simpl.
    assert (Hne : (fst (ans_cfg w c) =? 0) = false) by (apply Z.eqb_neq; lia).
    rewrite Hne. reflexivity.
Qed.

(** X14.  The probe writes nothing but 0x40 to the configuration
    register, and only after the identity was found right, the device
    allocated and the three calibration bytes read; it never takes the
    session mutex and never touches the caller's memory. *)
Theorem probe_writes_config_last c id k :
  let w := k_world k in
  let r := env_combo_probe c id k in
  let evs := events_since (k_trace k) (k_trace (snd r)) in
  (forall reg v, In (EvWrite reg v) evs ->
     reg = REG_CFG /\ v = 0x40 /\
     fst (ans_id w c) = WHO_AM_I_EXPECTED /\
     fst (ans_alloc w c) = true /\
     0 <= fst (ans_msb w c) /\ 0 <= fst (ans_lsb w c) /\
     0 <= fst (ans_hum w c)) /\
  ~ In EvLock evs /\ ~ In EvUnlock evs /\
  k_mem (snd r) = k_mem k.
Proof.
  intros w r evs. subst evs r.
  destruct (Z.eq_dec c NULL) as [Hc | Hc].
  { rewrite (probe_null_arguments c id k (or_introl Hc)). simpl.
    rewrite events_since_same.
    split; [intros reg v Hin; destruct Hin | simpl; tauto]. }
  destruct (Z.eq_dec id NULL) as [Hi | Hi].
  { rewrite (probe_null_arguments c id k (or_intror Hi)). simpl.
    rewrite events_since_same.
    split; [intros reg v Hin; destruct Hin | simpl; tauto]. }
  rewrite (probe_steps c id k Hc Hi). fold w.
  destruct (fst (ans_id w c) <? 0) eqn:E0; simpl.
  { unfold after_probe; simpl; rewrite events_since_app.
    split; [| simpl; intuition discriminate].
    intros reg v Hin. simpl in Hin. intuition discriminate. }
  destruct (fst (ans_id w c) =? WHO_AM_I_EXPECTED) eqn:E1; simpl.
  2:{ unfold after_probe; simpl; rewrite events_since_app.
      split; [| simpl; intuition discriminate].
      intros reg v Hin. simpl in Hin. intuition discriminate. }
  destruct (fst (ans_alloc w c)) eqn:E2; simpl.
  2:{ unfold after_probe; simpl; rewrite events_since_app.
      split; [| simpl; intuition discriminate].
      intros reg v Hin. simpl in Hin. intuition discriminate. }
  destruct (fst (ans_msb w c) <? 0) eqn:E3; simpl.
  { unfold after_probe; simpl; rewrite events_since_app.
    split; [| simpl; intuition discriminate].
    intros reg v Hin. simpl in Hin. intuition discriminate. }
  destruct (fst (ans_lsb w c) <? 0) eqn:E4; simpl.
  { unfold after_probe; simpl; rewrite events_since_app.
    split; [| simpl; intuition discriminate].
    intros reg v Hin. simpl in Hin. intuition discriminate. }
  destruct (fst (ans_hum w c) <? 0) eqn:E5; simpl.
  { unfold after_probe; simpl; rewrite events_since_app.
    split; [| simpl; intuition discriminate].
    intros reg v Hin. simpl in Hin. intuition discriminate. }
  apply Z.eqb_eq in E1. apply Z.ltb_ge in E3, E4, E5.
  assert (Hw : forall reg v, In (EvWrite reg v) probe_sequence ->
                 reg = REG_CFG /\ v = 0x40).
  { intros reg v Hin. simpl in Hin.
    destruct Hin as [Hx | [Hx | [Hx | [Hx | [Hx | []]]]]];
      try discriminate Hx.
    injection Hx as <- <-. split; reflexivity. }
  destruct (fst (ans_cfg w c) <? 0); simpl;
    unfold after_probe; simpl; rewrite events_since_app;
    (split; [| simpl; intuition discriminate]);
    intros reg v Hin; destruct (Hw reg v Hin) as [-> ->];
    repeat split; assumption.
Qed.

(** The state a successful probe leaves. *)
Lemma probe_success_state c id k :
  fst (env_combo_probe c id k) = 0 ->
  let w := k_world k in
  env_combo_probe c id k =
    (0, after_probe k (snd (ans_reg w c)) probe_sequence [ans_dev w c]).
Proof.
  intros Hz w.
  destruct (probe_zero_inv c id k Hz)
    as (Hc & Hi & Hid & Hal & Hm & Hl & Hh & Hcfg & Hreg).
  fold w in Hid, Hal, Hm, Hl, Hh, Hcfg, Hreg.
  rewrite (probe_steps c id k Hc Hi). fold w.
  apply Z.ltb_ge in Hm, Hl, Hh, Hcfg.
  rewrite Hid, Hal, Hm, Hl, Hh, Hcfg, Hreg. reflexivity.
Qed.

(** X15.  Probe, then read temperature.  On the session a successful
    probe registered, a successful temperature read stores
    [256 * msb + lsb] plus the offset [256 * cal_msb + cal_lsb] assembled
    from the calibration registers, exactly and within 0..131070; the
    session is left as the probe made it, and the whole trace is the
    probe sequence followed by the guarded read. *)
Theorem probe_then_read_temperature c id k chan val val2 status w1 msb w2 lsb w3 :
  let w := k_world k in
  let p := env_combo_probe c id k in
  let dev := ans_dev w c in
  fst p = 0 ->
  val <> NULL ->
  type chan = IIO_TEMP ->
  i2c_smbus_read_byte_data (k_world (snd p)) c REG_STATUS = (status, w1) ->
  0 <= status ->
  Z.land status STATUS_TEMP_RDY_MASK <> 0 ->
  i2c_smbus_read_byte_data w1 c REG_TEMP_MSB = (msb, w2) ->
  0 <= msb ->
  i2c_smbus_read_byte_data w2 c REG_TEMP_LSB = (lsb, w3) ->
  0 <= lsb ->
  let r := env_combo_read_raw dev (Some chan) val val2 IIO_CHAN_INFO_RAW (snd p) in
  let v := 256 * msb + lsb
           + (256 * fst (ans_msb w c) + fst (ans_lsb w c)) in
  k_iio (snd p) = k_iio k ++ [dev] /\
  rr_ret r = IIO_VAL_INT /\
  k_mem (rr_state r) !! val = Some v /\
  0 <= v <= 131070 /\
  rr_dev r = dev /\
  events_since (k_trace k) (k_trace (rr_state r)) =
    probe_sequence ++
    [EvLock; EvRead REG_STATUS; EvRead REG_TEMP_MSB; EvRead REG_TEMP_LSB;
     EvUnlock].
Proof.
  intros w p dev Hz Hv Ht E Hs Hb E1 Hm E2 Hl r v. subst v r.
  destruct (probe_zero_inv c id k Hz)
    as (_ & _ & _ & _ & Hcm & Hcl & _).
  fold w in Hcm, Hcl.
  pose proof (read_ok_byte _ _ _ _ _ (surjective_pairing (ans_msb w c)) Hcm) as Bcm.
  pose proof (read_ok_byte _ _ _ _ _ (surjective_pairing (ans_lsb w c)) Hcl) as Bcl.
  pose proof (read_ok_byte _ _ _ _ _ E1 Hm) as Bm.
  pose proof (read_ok_byte _ _ _ _ _ E2 Hl) as Bl.
  destruct (combine_bytes_range _ _ Bcm Bcl) as [Hcsum _].
  destruct (combine_bytes_range _ _ Bm Bl) as [Hsum _].
  unfold TEMP_SHIFT_BITS in Hcsum, Hsum.
  assert (Hp : p = (0, after_probe k (snd (ans_reg w c)) probe_sequence [dev]))
    by (apply probe_success_state; exact Hz).
  rewrite Hp in E |- *. simpl in E. simpl snd.
  assert (Hr := read_raw_temp_ok dev chan val val2
                  (after_probe k (snd (ans_reg w c)) probe_sequence [dev])
                  status w1 msb w2 lsb w3 Hv Ht E Hs Hb E1 Hm E2 Hl).
  rewrite Hr. unfold rr_ret, rr_dev, rr_state, after_call, after_probe. simpl.
  rewrite lookup_insert_eq, <- app_assoc, events_since_app.
  change 0xFF with BYTE_MASK. rewrite (byte_land_mask lsb Bl).
  unfold TEMP_SHIFT_BITS. rewrite Hsum, Hcsum.
  rewrite int_add_exact by (unfold INT_MIN, INT_MAX; lia).
  repeat split; try lia. f_equal. lia.
Qed.

(** X16.  Probe, then read humidity.  On the session a successful probe
    registered, a successful humidity read stores the HUM_OUT byte plus
    the humidity calibration byte, exactly and within 0..510. *)
Theorem probe_then_read_humidity c id k chan val val2 status w1 hum w2 :
  let w := k_world k in
  let p := env_combo_probe c id k in
  let dev := ans_dev w c in
  fst p = 0 ->
  val <> NULL ->
  type chan = IIO_HUMIDITYRELATIVE ->
  i2c_smbus_read_byte_data (k_world (snd p)) c REG_STATUS = (status, w1) ->
  0 <= status ->
  Z.land status STATUS_HUM_RDY_MASK <> 0 ->
  i2c_smbus_read_byte_data w1 c REG_HUM_OUT = (hum, w2) ->
  0 <= hum ->
  let r := env_combo_read_raw dev (Some chan) val val2 IIO_CHAN_INFO_RAW (snd p) in
  let v := hum + fst (ans_hum w c) in
  rr_ret r = IIO_VAL_INT /\
  k_mem (rr_state r) !! val = Some v /\
  0 <= v <= 510 /\
  rr_dev r = dev /\
  events_since (k_trace k) (k_trace (rr_state r)) =
    probe_sequence ++ [EvLock; EvRead REG_STATUS; EvRead REG_HUM_OUT; EvUnlock].
Proof.
  intros w p dev Hz Hv Ht E Hs Hb E1 Hh r v. subst v r.
  destruct (probe_zero_inv c id k Hz)
    as (_ & _ & _ & _ & _ & _ & Hch & _).
  fold w in Hch.
  pose proof (read_ok_byte _ _ _ _ _ (surjective_pairing (ans_hum w c)) Hch) as Bch.
  pose proof (read_ok_byte _ _ _ _ _ E1 Hh) as Bh.
  assert (Hp : p = (0, after_probe k (snd (ans_reg w c)) probe_sequence [dev]))
    by (apply probe_success_state; exact Hz).
  rewrite Hp in E |- *. simpl in E. simpl snd.
  assert (Hr := read_raw_hum_ok dev chan val val2
                  (after_probe k (snd (ans_reg w c)) probe_sequence [dev])
                  status w1 hum w2 Hv Ht E Hs Hb E1 Hh).
  rewrite Hr. unfold rr_ret, rr_dev, rr_state, after_call, after_probe. simpl.
  rewrite lookup_insert_eq, <- app_assoc, events_since_app.
  rewrite int_add_exact by (unfold INT_MIN, INT_MAX; lia).
  repeat split; lia.
Qed.

End ProbeMore.

(** ** Further runs on the simulated device *)

(** X4, on the device: the status register cannot be read. *)
Lemma read_raw_status_failure_witness :
  let r := env_combo_read_raw (sim_session 258 5) (Some volt_chan)
             0x1000 0x1004 IIO_CHAN_INFO_RAW
             (sim_boot sim_regs_good [REG_STATUS] 0 true 0) in
  rr_ret r = - EIO /\
  k_trace (rr_state r) = [EvLock; EvRead REG_STATUS; EvUnlock].
Proof.
  pose (k := sim_boot sim_regs_good [REG_STATUS] 0 true 0).
  destruct (@read_raw_status_failure sim_device sim_platform
              (sim_session 258 5) volt_chan 0x1000 0x1004 k (- EIO) (k_world k)
              ltac:(discriminate) ltac:(sim_eval) ltac:(sim_eval))
    as (Hret & Hevs & _).
  split; [exact Hret | exact Hevs].
Defined.

(** X5, on the device: TEMP_MSB reads, TEMP_LSB fails. *)
Lemma read_raw_temp_data_failure_witness :
  let r := env_combo_read_raw (sim_session 258 5) (Some temp_chan)
             0x1000 0x1004 IIO_CHAN_INFO_RAW
             (sim_boot sim_regs_good [REG_TEMP_LSB] 0 true 0) in
  rr_ret r = - EIO /\ k_mem (rr_state r) = ∅.
Proof.
  pose (k := sim_boot sim_regs_good [REG_TEMP_LSB] 0 true 0).
  destruct (@read_raw_temp_data_failure sim_device sim_platform
              (sim_session 258 5) temp_chan 0x1000 0x1004 k
              0x06 (k_world k) 0x00 (k_world k)
              ltac:(discriminate) ltac:(sim_eval) ltac:(sim_eval)
              ltac:(sim_eval) ltac:(sim_eval) ltac:(sim_eval))
    as [_ Hlsb].
  destruct (Hlsb ltac:(sim_eval) ltac:(sim_eval)) as (Hret & _ & Hmem).
  split; [exact Hret | exact Hmem].
Defined.

(** X6, on the device: HUM_OUT cannot be read. *)
Lemma read_raw_hum_data_failure_witness :
  let r := env_combo_read_raw (sim_session 258 5) (Some hum_chan)
             0x1000 0x1004 IIO_CHAN_INFO_RAW
             (sim_boot sim_regs_good [REG_HUM_OUT] 0 true 0) in
  rr_ret r = - EIO /\ k_mem (rr_state r) = ∅.
Proof.
  pose (k := sim_boot sim_regs_good [REG_HUM_OUT] 0 true 0).
  destruct (@read_raw_hum_data_failure sim_device sim_platform
              (sim_session 258 5) hum_chan 0x1000 0x1004 k
              0x06 (k_world k) (- EIO) (k_world k)
              ltac:(discriminate) ltac:(sim_eval) ltac:(sim_eval)
              ltac:(sim_eval) ltac:(sim_eval) ltac:(sim_eval) ltac:(sim_eval))
    as (Hret & _ & Hmem).
  split; [exact Hret | exact Hmem].
Defined.

(** X7, on the device: status 0x04, humidity ready and temperature not. *)
Lemma read_raw_not_ready_iff_witness :
  let k := sim_boot [(REG_STATUS, 0x04); (REG_HUM_OUT, 0x32)] [] 0 true 0 in
  rr_ret (env_combo_read_raw (sim_session 258 5) (Some temp_chan)
            0x1000 0x1004 IIO_CHAN_INFO_RAW k) = - EAGAIN /\
  (rr_ret (env_combo_read_raw (sim_session 258 5) (Some hum_chan)
             0x1000 0x1004 IIO_CHAN_INFO_RAW k) = IIO_VAL_INT \/
   rr_ret (env_combo_read_raw (sim_session 258 5) (Some hum_chan)
             0x1000 0x1004 IIO_CHAN_INFO_RAW k) = - EIO).
Proof.
  pose (k := sim_boot [(REG_STATUS, 0x04); (REG_HUM_OUT, 0x32)] [] 0 true 0).
  destruct (@read_raw_not_ready_iff sim_device sim_platform
              (sim_session 258 5) temp_chan 0x1000 0x1004 k 0x04 (k_world k)
              ltac:(discriminate) ltac:(sim_eval) ltac:(sim_eval))
    as [Htemp _].
  destruct (@read_raw_not_ready_iff sim_device sim_platform
              (sim_session 258 5) hum_chan 0x1000 0x1004 k 0x04 (k_world k)
              ltac:(discriminate) ltac:(sim_eval) ltac:(sim_eval))
    as [_ Hhum].
  split.
  - apply (proj1 (Htemp ltac:(sim_eval))). sim_eval.
  - apply (proj2 (Hhum ltac:(sim_eval))). sim_eval.
Defined.

(** X9, on the device: temperature 0x0064 with offset 258. *)
Lemma read_raw_reading_range_witness :
  k_mem (rr_state (env_combo_read_raw (sim_session 258 5) (Some temp_chan)
                     0x1000 0x1004 IIO_CHAN_INFO_RAW
                     (sim_boot sim_regs_good [] 0 true 0))) !! (0x1000 : Z)
  = Some 358.
Proof.
  pose (k := sim_boot sim_regs_good [] 0 true 0).
  destruct (proj1 (@read_raw_reading_range sim_device sim_platform)
              (sim_session 258 5) temp_chan 0x1000 0x1004 k
              0x06 (k_world k) 0x00 (k_world k) 0x64 (k_world k)
              ltac:(discriminate) ltac:(sim_eval) ltac:(sim_eval)
              ltac:(sim_eval) ltac:(sim_eval) ltac:(sim_eval) ltac:(sim_eval)
              ltac:(sim_eval) ltac:(sim_eval)
              ltac:(vm_compute; split; discriminate))
    as [Hval _].
  exact Hval.
Defined.

(** X10, on the device: the humidity channel of the registered table. *)
Lemma registered_channels_are_served_witness :
  rr_ret (env_combo_read_raw (probed_dev 0x40 0x01 0x02 0x05) (Some hum_chan)
            0x1000 0x1004 IIO_CHAN_INFO_RAW
            (sim_boot sim_regs_good [] 0 true 0)) <> - EINVAL.
Proof.
  destruct (@registered_channels_are_served sim_device sim_platform
              0x40 0x01 0x02 0x05 hum_chan 0x1000 0x1004
              (sim_boot sim_regs_good [] 0 true 0)
              ltac:(right; left; reflexivity) ltac:(discriminate))
    as (_ & _ & _ & Hne).
  exact Hne.
Defined.

(** X11, on the device: the allocation fails. *)
Lemma probe_allocation_failure_witness :
  let r := env_combo_probe 0x40 1 (sim_boot sim_regs_good [] 0 false 0) in
  fst r = - ENOMEM /\ k_trace (snd r) = [EvRead REG_WHO_AM_I] /\
  k_iio (snd r) = [].
Proof.
  destruct (@probe_allocation_failure sim_device sim_platform 0x40 1
              (sim_boot sim_regs_good [] 0 false 0)
              ltac:(discriminate) ltac:(discriminate)
              ltac:(sim_eval) ltac:(sim_eval))
    as (Hret & Hevs & Hiio & _).
  split; [exact Hret | split; [exact Hevs | exact Hiio]].
Defined.

(** X12, on the device: the registration returns [-ENOMEM]. *)
Lemma probe_registration_failure_witness :
  let r := env_combo_probe 0x40 1 (sim_boot sim_regs_good [] 0 true (- ENOMEM)) in
  fst r = - ENOMEM /\ k_trace (snd r) = probe_sequence /\ k_iio (snd r) = [].
Proof.
  destruct (@probe_registration_failure sim_device sim_platform 0x40 1
              (sim_boot sim_regs_good [] 0 true (- ENOMEM))
              ltac:(discriminate) ltac:(discriminate)
              ltac:(sim_eval) ltac:(sim_eval) ltac:(sim_eval) ltac:(sim_eval)
              ltac:(sim_eval) ltac:(sim_eval))
    as (Hret & Hevs & Hiio).
  split; [exact Hret | split; [exact Hevs | apply Hiio; sim_eval]].
Defined.

(** X15, on the device: probe, then a temperature read of 0x0064 with
    the offset 258 the probe loaded. *)
Lemma probe_then_read_temperature_witness :
  let p := env_combo_probe 0x40 1 (sim_boot sim_regs_good [] 0 true 0) in
  let r := env_combo_read_raw (probed_dev 0x40 0x01 0x02 0x05) (Some temp_chan)
             0x1000 0x1004 IIO_CHAN_INFO_RAW (snd p) in
  rr_ret r = IIO_VAL_INT /\ k_mem (rr_state r) !! (0x1000 : Z) = Some 358.
Proof.
  pose (k := sim_boot sim_regs_good [] 0 true 0).
  pose (w := k_world (snd (env_combo_probe 0x40 1 k))).
  destruct (@probe_then_read_temperature sim_device sim_platform 0x40 1 k
              temp_chan 0x1000 0x1004 0x06 w 0x00 w 0x64 w
              ltac:(sim_eval) ltac:(discriminate) ltac:(sim_eval)
              ltac:(sim_eval) ltac:(sim_eval) ltac:(sim_eval) ltac:(sim_eval)
              ltac:(sim_eval) ltac:(sim_eval) ltac:(sim_eval))
    as (_ & Hret & Hval & _).
  split; [exact Hret | exact Hval].
Defined.

(** X16, on the device: probe, then a humidity read of 0x32 with the
    offset 5 the probe loaded. *)
Lemma probe_then_read_humidity_witness :
  let p := env_combo_probe 0x40 1 (sim_boot sim_regs_good [] 0 true 0) in
  let r := env_combo_read_raw (probed_dev 0x40 0x01 0x02 0x05) (Some hum_chan)
             0x1000 0x1004 IIO_CHAN_INFO_RAW (snd p) in
  rr_ret r = IIO_VAL_INT /\ k_mem (rr_state r) !! (0x1000 : Z) = Some 55.
Proof.
  pose (k := sim_boot sim_regs_good [] 0 true 0).
  pose (w := k_world (snd (env_combo_probe 0x40 1 k))).
  destruct (@probe_then_read_humidity sim_device sim_platform 0x40 1 k
              hum_chan 0x1000 0x1004 0x06 w 0x32 w
              ltac:(sim_eval) ltac:(discriminate) ltac:(sim_eval)
              ltac:(sim_eval) ltac:(sim_eval) ltac:(sim_eval) ltac:(sim_eval)
              ltac:(sim_eval))
    as (Hret & Hval & _).
  split; [exact Hret | exact Hval].
Defined.
